(** * Session lifecycle of the Playwright base library ([src/main.js])

    A shallow embedding of [main.js]: the module-level configuration read
    from [process.env], [setup] and its two assertions, [main] with its
    [try]/[catch]/[finally], [takeScreenshot], [waitEntirePageToLoad] and
    [askUser].

    Conventions.
    - A JavaScript string is the Rocq [string] of its characters (for text
      outside ASCII: the bytes of its UTF-8 encoding).
    - A JavaScript number is a double, kept as its exact value; a product
      and the result of [parseInt] are rounded to the nearest double.
    - The browser engine, the file system, [logging.js], the clock and the
      caller's callback are the environment: a [world] answers every call,
      knowing the whole history of events that came before it. *)

From Stdlib Require Import ZArith List String Ascii Bool Lia.
Import ListNotations.

Local Open Scope Z_scope.
Local Open Scope string_scope.

(** ** JavaScript values *)

Module Js.

(** A number is a double: [NaN], an infinity, or a finite value
    [Fin m e], which stands for m * 2^e. The operations below return a
    finite value in one form: [e <= 0], and [m] odd when [e < 0]; so the
    integer n is [Fin n 0]. Nothing in [main.js] tells -0 from 0 (no
    division, no [Object.is]; both are falsy), and both are [Fin 0 0]. *)
Inductive number : Type :=
| NaN
| Inf (negative : bool)
| Fin (m e : Z).

(** The number of binary digits of a positive integer. *)
Definition bits (m : Z) : Z := Z.log2 m + 1.

(** [m / 2^shift] for [0 <= m] and [0 < shift], rounded to the nearest
    integer, a tie to the even one. *)
Definition round_half_even (m shift : Z) : Z :=
  let q := Z.shiftr m shift in
  let r := m - Z.shiftl q shift in
  let half := Z.shiftl 1 (shift - 1) in
  if (r <? half)%Z then q
  else if (half <? r)%Z then q + 1
  else if Z.even q then q else q + 1.

(** Halves an even [m] while the exponent [- k] is below zero. *)
Fixpoint strip (m : positive) (k : nat) : positive * nat :=
  match k, m with
  | S k', xO m' => strip m' k'
  | _, _ => (m, k)
  end.

(** The finite double of magnitude m * 2^e, for [0 < m]. *)
Definition finite (negative : bool) (m e : Z) : number :=
  let signed (z : Z) := if negative then - z else z in
  if (0 <=? e)%Z then Fin (signed (m * 2 ^ e)) 0
  else
    let '(m', k) := strip (Z.to_pos m) (Z.to_nat (- e)) in
    Fin (signed (Zpos m')) (- Z.of_nat k).

(** The double nearest to m * 2^e (round to nearest, ties to even): 53
    binary digits, no digit below 2^-1074, and an infinity from 2^1024
    on. *)
Definition round (m e : Z) : number :=
  if Z.eqb m 0 then Fin 0 0
  else
    let a := Z.abs m in
    let shift := Z.max (bits a - 53) (- 1074 - e) in
    let '(q, e') :=
      if (0 <? shift)%Z then (round_half_even a shift, e + shift) else (a, e) in
    if Z.eqb q 0 then Fin 0 0
    else if (1024 <? bits q + e')%Z then Inf (m <? 0)%Z
    else finite (m <? 0)%Z q e'.

(** The double nearest to the integer [n]. *)
Definition Int (n : Z) : number := round n 0.

(** What [main.js] reads from [process.env] and builds from it:
    [undefined], [null] or a string. *)
Inductive jsval : Type :=
| JUndefined
| JNull
| JString (s : string).

(** Any value [main.js] tests or prints: one of the above, or a number. *)
Inductive anyval : Type :=
| Of (v : jsval)
| JNumber (x : number).

Coercion Of : jsval >-> anyval.

(** [ToBoolean]: what [!v], [v ? a : b], [if (v)] and [v || w] test. *)
Definition truthy (v : anyval) : bool :=
  match v with
  | Of JUndefined | Of JNull => false
  | Of (JString s) => negb (String.eqb s "")
  | JNumber NaN => false
  | JNumber (Inf _) => true
  | JNumber (Fin m _) => negb (Z.eqb m 0)
  end.

(** [a || b] *)
Definition or_else (a b : jsval) : jsval := if truthy a then a else b.

(** [a || b] where both operands are numbers. *)
Definition num_or (a b : number) : number :=
  if truthy (JNumber a) then a else b.

(** [a * b] on numbers: the exact product, rounded. *)
Definition num_mul (a b : number) : number :=
  match a, b with
  | NaN, _ | _, NaN => NaN
  | Inf s, Inf t => Inf (xorb s t)
  | Inf s, Fin m _ | Fin m _, Inf s =>
      if Z.eqb m 0 then NaN else Inf (xorb s (m <? 0)%Z)
  | Fin m e, Fin m' e' => round (m * m') (e + e')
  end.

(** [ToString] of a value that is not a number, as applied by [+] with a
    string operand and by [parseInt] to its argument. *)
Definition toString (v : jsval) : string :=
  match v with
  | JUndefined => "undefined"
  | JNull => "null"
  | JString s => s
  end.

(** [a !== b] *)
Definition strict_neq (a b : jsval) : bool :=
  match a, b with
  | JUndefined, JUndefined | JNull, JNull => false
  | JString s, JString t => negb (String.eqb s t)
  | _, _ => true
  end.

(** *** [parseInt(string, 10)] *)

Definition code (c : ascii) : N := N_of_ascii c.

(** White space and line terminators of one byte:
    TAB, LF, VT, FF, CR, SP. *)
Definition ws1 (a : ascii) : bool :=
  let n := code a in
  (((9 <=? n) && (n <=? 13)) || (n =? 32))%N.

(** U+00A0 (no-break space). *)
Definition ws2 (a b : ascii) : bool :=
  ((code a =? 194) && (code b =? 160))%N.

(** U+1680, U+2000..U+200A, U+2028, U+2029, U+202F, U+205F, U+3000 and
    U+FEFF. *)
Definition ws3 (a b c : ascii) : bool :=
  let x := code a in
  let y := code b in
  let z := code c in
  (((x =? 225) && (y =? 154) && (z =? 128))
   || ((x =? 226) && (y =? 128)
       && (((128 <=? z) && (z <=? 138)) || (z =? 168) || (z =? 169) || (z =? 175)))
   || ((x =? 226) && (y =? 129) && (z =? 159))
   || ((x =? 227) && (y =? 128) && (z =? 128))
   || ((x =? 239) && (y =? 187) && (z =? 191)))%N.

(** Step 2 of [parseInt]: leading white space is dropped. *)
Fixpoint trimStart (s : string) : string :=
  match s with
  | EmptyString => s
  | String a r1 =>
      if ws1 a then trimStart r1
      else
        match r1 with
        | EmptyString => s
        | String b r2 =>
            if ws2 a b then trimStart r2
            else
              match r2 with
              | EmptyString => s
              | String c r3 => if ws3 a b c then trimStart r3 else s
              end
        end
  end.

Definition isDigit (c : ascii) : bool :=
  ((48 <=? code c) && (code c <=? 57))%N.

Definition digitValue (c : ascii) : Z := Z.of_N (code c) - 48.

(** The longest prefix of decimal digits, read as an integer; [None] when
    that prefix is empty. *)
Fixpoint parseDigits (acc : option Z) (s : string) : option Z :=
  match s with
  | EmptyString => acc
  | String c r =>
      if isDigit c
      then parseDigits
             (Some (10 * match acc with Some a => a | None => 0 end + digitValue c)) r
      else acc
  end.

(** The integer that was read becomes the nearest double. *)
Definition parseInt10 (v : jsval) : number :=
  let s := trimStart (toString v) in
  let '(sign, s) :=
    match s with
    | String "-" r => (-1, r)
    | String "+" r => (1, r)
    | _ => (1, s)
    end in
  match parseDigits None s with
  | None => NaN
  | Some m => Int (sign * m)
  end.

(** *** [String.prototype.replace(/[:.]/g, '-')] *)

Definition colon_or_dot (c : ascii) : bool :=
  ((code c =? 58) || (code c =? 46))%N.

Fixpoint replace_colon_dot (s : string) : string :=
  match s with
  | EmptyString => EmptyString
  | String c r =>
      String (if colon_or_dot c then "-"%char else c) (replace_colon_dot r)
  end.

End Js.

Import Js.

(** ** [process.env] and the module-level configuration *)

Definition env : Type := list (string * string).

(** [process.env.NAME]: the variable's value, or [undefined]. *)
Fixpoint env_get (e : env) (name : string) : jsval :=
  match e with
  | [] => JUndefined
  | (k, v) :: rest => if String.eqb k name then JString v else env_get rest name
  end.

Module Config.

Definition DEMO_MODE (e : env) : bool :=
  strict_neq (env_get e "DEMO_MODE") (JString "false").

Definition LOGS_FOLDER_PATH (e : env) : string :=
  toString (or_else (env_get e "LOGS_FOLDER_PATH") (JString "data/logs")) ++ "/".

Definition SCREENSHOT_FOLDER_PATH (e : env) : string :=
  toString (or_else (env_get e "SCREENSHOT_FOLDER_PATH") (JString "data/screenshots")) ++ "/".

Definition BASE_URL (e : env) : jsval :=
  if truthy (env_get e "BASE_URL")
  then JString (toString (env_get e "BASE_URL") ++ "/")
  else JNull.

Definition DEFAULT_ADDITIONAL_WAIT_TIME_SECONDS (e : env) : number :=
  num_or (parseInt10 (env_get e "DEFAULT_ADDITIONAL_WAIT_TIME_SECONDS")) (Int 3).

Definition QUESTION_TIMEOUT_SECONDS (e : env) : number :=
  num_or (parseInt10 (env_get e "QUESTION_TIMEOUT_SECONDS")) (Int 30).

Definition default_user_agent : string :=
  "Mozilla/5.0 (Windows NT 10.0; Win64; x64) AppleWebKit/537.36 (KHTML, like Gecko) Chrome/58.0.3029.110 Safari/537.3".

Definition USER_AGENT (e : env) : jsval :=
  or_else (env_get e "USER_AGENT") (JString default_user_agent).

Definition USER_DATA_DIR (e : env) : jsval := env_get e "USER_DATA_DIR".

End Config.

Import Config.

(** ** The environment of a run *)

(** A thrown value: an error object with its [name] and [message]. *)
Inductive exn : Type :=
| JsError (name message : string).

Definition Error (message : string) : exn := JsError "Error" message.

Definition TypeError (message : string) : exn := JsError "TypeError" message.

(** The object [main] passes as [options] to either launcher. *)
Record launchOptions : Type := {
  headless : bool;
  viewport : jsval;
  args : list string;
  userAgent : jsval
}.

(** What [context] holds once a launcher has returned. *)
Inductive session : Type :=
| PersistentSession (userDataDir : jsval) (o : launchOptions)
| EphemeralSession (o : launchOptions).

(** What [page] holds once [context.newPage()] has returned. *)
Inductive pageh : Type :=
| PageOf (s : session).

(** Operations of the collaborators: the file system, [logging.js] and
    the browser engine. [mkdirSync] is called with [recursive: true]. *)
Inductive call : Type :=
| ExistsSync (path : string)
| MkdirSync (path : string)
| LoggingSetup (demo : bool) (logsFolder : string)
| LaunchPersistentContext (userDataDir : jsval) (o : launchOptions)
| Launch (o : launchOptions)
| NewPage (s : session)
| Goto (p : pageh) (url : jsval)
| WaitForLoadState (p : pageh) (state : string)
| WaitForTimeout (p : pageh) (ms : number)
| Screenshot (p : pageh) (path : string)
| PageClose (p : pageh)
| ContextClose (s : session).

(** What a run leaves behind, oldest first. A [Called] event records the
    attempt, whether or not the call then throws. [ConsoleLogValue t v] is
    [console.log] of a template literal: the text [t], then [ToString] of
    [v]. *)
Inductive event : Type :=
| ConsoleLog (line : string)
| ConsoleError (line : string) (e : exn)
| ConsoleTime (label : string)
| ConsoleTimeEnd (label : string)
| ReadlineClose
| Called (c : call)
| Processing (p : pageh)
| Callback (effect : string)
| ProcessExit (code : Z)
| ConsoleLogValue (text : string) (v : anyval).

(** How an awaited computation ends: it returns, it throws, the process
    has exited, or the awaited promise never settles. *)
Inductive outcome (A : Type) : Type :=
| Normal (a : A)
| Throw (e : exn)
| Exited (code : Z)
| Pending.

Arguments Normal {A} a.
Arguments Throw {A} e.
Arguments Exited {A} code.
Arguments Pending {A}.

Record world : Type := {
  w_env : env;
  (** [fs.existsSync(path)] *)
  w_exists : list event -> string -> bool;
  (** [None]: the call returns; [Some e]: it throws [e]. *)
  w_fail : list event -> call -> option exn;
  (** [new Date()], in milliseconds since the epoch *)
  w_now : list event -> Z;
  (** [Date.prototype.toISOString] *)
  w_toISOString : Z -> string;
  (** [path.join(a, b)] *)
  w_path_join : string -> string -> string;
  (** the caller's [processing(page, utilFunctions)]: how it ends and the
      effects it had *)
  w_processing : pageh -> list event -> outcome unit * list string
}.

(** ** The monad of [async] functions: history, the two locals of [main],
    and the four outcomes *)

Record state : Type := {
  hist : list event;
  context : option session;
  page : option pageh
}.

Definition init : state := {| hist := []; context := None; page := None |}.

Definition M (A : Type) : Type := state -> outcome A * state.

Definition ret {A} (a : A) : M A := fun s => (Normal a, s).

Definition bind {A B} (m : M A) (f : A -> M B) : M B :=
  fun s =>
    match m s with
    | (Normal a, s') => f a s'
    | (Throw e, s') => (Throw e, s')
    | (Exited c, s') => (Exited c, s')
    | (Pending, s') => (Pending, s')
    end.

Declare Scope js_scope.
Delimit Scope js_scope with js.

Notation "x <- m ;; k" := (bind m (fun x => k))
  (at level 61, m at next level, right associativity) : js_scope.
Notation "m ;; k" := (bind m (fun _ => k))
  (at level 61, right associativity) : js_scope.

Local Open Scope js_scope.

Definition throw {A} (e : exn) : M A := fun s => (Throw e, s).

Definition record (evs : list event) (s : state) : state :=
  {| hist := (hist s ++ evs)%list; context := context s; page := page s |}.

Definition emit (ev : event) : M unit := fun s => (Normal tt, record [ev] s).

(** A call of a collaborator that may throw: the attempt is recorded, and
    the world says whether it throws. *)
Definition invoke (w : world) (c : call) : M unit :=
  fun s =>
    match w_fail w (hist s) c with
    | None => (Normal tt, record [Called c] s)
    | Some e => (Throw e, record [Called c] s)
    end.

(** [try { m } catch (error) { h error }] *)
Definition try_catch {A} (m : M A) (h : exn -> M A) : M A :=
  fun s =>
    match m s with
    | (Throw e, s') => h e s'
    | r => r
    end.

(** [try { m } finally { f }]: [f] runs after [m] returned or threw; when
    [f] ends abruptly, that replaces how [m] ended. *)
Definition try_finally {A} (m : M A) (f : M unit) : M A :=
  fun s =>
    match m s with
    | (Exited c, s') => (Exited c, s')
    | (Pending, s') => (Pending, s')
    | (r, s') =>
        match f s' with
        | (Normal _, s'') => (r, s'')
        | (Throw e, s'') => (Throw e, s'')
        | (Exited c, s'') => (Exited c, s'')
        | (Pending, s'') => (Pending, s'')
        end
    end.

(** [process.exit(code)] *)
Definition process_exit {A} (code : Z) : M A :=
  fun s => (Exited code, record [ProcessExit code] s).

(** Reading a property of a variable that may still be [undefined]. *)
Definition deref {T} (v : option T) (prop : string) : M T :=
  match v with
  | Some x => ret x
  | None =>
      throw (TypeError ("Cannot read properties of undefined (reading '" ++ prop ++ "')"))
  end.

Definition get_context : M (option session) := fun s => (Normal (context s), s).

Definition get_page : M (option pageh) := fun s => (Normal (page s), s).

Definition set_context (c : session) : M unit :=
  fun s => (Normal tt, {| hist := hist s; context := Some c; page := page s |}).

Definition set_page (p : pageh) : M unit :=
  fun s => (Normal tt, {| hist := hist s; context := context s; page := Some p |}).

Definition existsSync (w : world) (path : string) : M bool :=
  fun s => (Normal (w_exists w (hist s) path), record [Called (ExistsSync path)] s).

Definition now (w : world) : M Z := fun s => (Normal (w_now w (hist s)), s).

(** The caller's callback, run to its end. *)
Definition processing (w : world) (p : pageh) : M unit :=
  fun s =>
    let '(r, effects) := w_processing w p (hist s ++ [Processing p])%list in
    (r, record (Processing p :: map Callback effects) s).

(** ** [main.js], function by function *)

Definition nl : string := String "010"%char EmptyString.

Definition assertEnvVariableValue
  (envVariableValue : anyval) (envVariableName : string) (required : bool) : M unit :=
  (if negb (truthy envVariableValue) && required
   then throw (Error (envVariableName ++ " environment variable is not set."))
   else ret tt) ;;
  if truthy envVariableValue
  then emit (ConsoleLogValue (envVariableName ++ " is set to: ") envVariableValue)
  else emit (ConsoleLog (envVariableName ++ " is not set")).

Definition assertFolderPathValue
  (w : world) (folderPathValue folderPathName : string) : M unit :=
  (if negb (truthy (JString folderPathValue))
   then throw (Error (folderPathName ++ " is not set."))
   else
     there <- existsSync w folderPathValue ;;
     if negb there then invoke w (MkdirSync folderPathValue) else ret tt) ;;
  emit (ConsoleLog (folderPathName ++ " is set to " ++ folderPathValue ++ " ")).

Definition setup (w : world) : M unit :=
  let e := w_env w in
  emit (ConsoleLog "Starting Setup...") ;;
  assertFolderPathValue w (LOGS_FOLDER_PATH e) "LOGS_FOLDER_PATH" ;;
  invoke w (LoggingSetup (DEMO_MODE e) (LOGS_FOLDER_PATH e)) ;;
  assertFolderPathValue w (SCREENSHOT_FOLDER_PATH e) "SCREENSHOT_FOLDER_PATH" ;;
  assertEnvVariableValue (BASE_URL e) "BASE_URL" true ;;
  assertEnvVariableValue (USER_AGENT e) "USER_AGENT" true ;;
  assertEnvVariableValue
    (JNumber (DEFAULT_ADDITIONAL_WAIT_TIME_SECONDS e))
    "DEFAULT_ADDITIONAL_WAIT_TIME_SECONDS" true ;;
  assertEnvVariableValue (USER_DATA_DIR e) "USER_DATA_DIR" false ;;
  emit (ConsoleLog "Setup completed successfully.").

(** The template literal of [takeScreenshot], with [demo] for [DEMO_MODE],
    [prefix] as passed and [iso] for [new Date().toISOString()]. *)
Definition screenshotFileName (demo : bool) (prefix : string) (iso : string) : string :=
  let isoDateTime := replace_colon_dot iso in
  let demoLabel := if demo then "DEMO-" else "" in
  let prefix := if truthy (JString prefix) then prefix ++ "-" else prefix in
  demoLabel ++ prefix ++ "screenshot-" ++ isoDateTime ++ ".png".

(** [prefix = None] is the call that leaves the parameter out. *)
Definition takeScreenshot (w : world) (page : option pageh) (prefix : option string) : M unit :=
  let prefix := match prefix with Some p => p | None => "" end in
  t <- now w ;;
  let name := screenshotFileName (DEMO_MODE (w_env w)) prefix (w_toISOString w t) in
  p <- deref page "screenshot" ;;
  invoke w (Screenshot p (w_path_join w (SCREENSHOT_FOLDER_PATH (w_env w)) name)) ;;
  emit (ConsoleLog ("Screenshot taken: " ++ name)).

(** [additionalWaitTimeSeconds = None] is the call that leaves the
    parameter out. *)
Definition waitEntirePageToLoad
  (w : world) (page : option pageh) (additionalWaitTimeSeconds : option number) : M unit :=
  let additionalWaitTimeSeconds :=
    match additionalWaitTimeSeconds with
    | Some n => n
    | None => DEFAULT_ADDITIONAL_WAIT_TIME_SECONDS (w_env w)
    end in
  emit (ConsoleTime "Page fully loaded.") ;;
  p <- deref page "waitForLoadState" ;;
  invoke w (WaitForLoadState p "domcontentloaded") ;;
  invoke w (WaitForLoadState p "load") ;;
  invoke w (WaitForLoadState p "networkidle") ;;
  invoke w (WaitForTimeout p (num_mul (Int 1000) additionalWaitTimeSeconds)) ;;
  emit (ConsoleTimeEnd "Page fully loaded.").

Definition options (w : world) : launchOptions :=
  {| headless := false;
     viewport := JNull;
     args := ["--start-maximized"];
     userAgent := USER_AGENT (w_env w) |}.

Definition launchPersistentContext
  (w : world) (userDataDir : jsval) (o : launchOptions) : M session :=
  invoke w (LaunchPersistentContext userDataDir o) ;;
  ret (PersistentSession userDataDir o).

Definition launch (w : world) (o : launchOptions) : M session :=
  invoke w (Launch o) ;;
  ret (EphemeralSession o).

Definition newPage (w : world) (c : session) : M pageh :=
  invoke w (NewPage c) ;;
  ret (PageOf c).

(** The [try] block of [main]. *)
Definition main_try (w : world) : M unit :=
  let e := w_env w in
  emit (ConsoleLog (nl ++ nl ++ " **** Starting ****")) ;;
  setup w ;;
  c <- (if truthy (USER_DATA_DIR e)
        then launchPersistentContext w (USER_DATA_DIR e) (options w)
        else launch w (options w)) ;;
  set_context c ;;
  p <- newPage w c ;;
  set_page p ;;
  invoke w (Goto p (BASE_URL e)) ;;
  waitEntirePageToLoad w (Some p) None ;;
  processing w p ;;
  emit (ConsoleLog "Finishing...").

(** The [catch] block of [main]. *)
Definition main_catch (w : world) (error : exn) : M unit :=
  emit (ConsoleError "Error occurred while processing visitors:" error) ;;
  p <- get_page ;;
  takeScreenshot w p (Some "error").

(** The [finally] block of [main]. *)
Definition main_finally (w : world) : M unit :=
  emit (ConsoleLog "Closing resources...") ;;
  emit ReadlineClose ;;
  p <- get_page ;;
  p <- deref p "close" ;;
  invoke w (PageClose p) ;;
  c <- get_context ;;
  c <- deref c "close" ;;
  invoke w (ContextClose c) ;;
  emit (ConsoleLog "**** Done **** ") ;;
  process_exit 0.

Definition main (w : world) : M unit :=
  try_finally (try_catch (main_try w) (main_catch w)) (main_finally w).

(** ** [askUser] and the prompt channel

    [askUser] returns at once with a promise; what happens to it is decided
    later, by the two things the event loop may then deliver: a line typed
    by the operator and the firing of the timer of lines 181-185. The
    model is the state these callbacks share and one transition for each.

    From Node: [AbortController.abort()] does nothing on a signal that is
    already aborted, and otherwise runs the signal's listeners in the order
    they were added; an error thrown by a listener does not stop the others
    and is reported as an uncaught exception; [readline]'s [question] with a
    [signal] adds a listener that cancels the question without calling its
    callback, and removes it when the answer comes; a closed interface reads
    no more lines. An uncaught exception runs the handler of lines 209-212. *)

Module Prompt.

(** The promise of lines 187-192. *)
Inductive promise : Type :=
| Unsettled
| Resolved (answer : string)
| Rejected (e : exn).

Record state : Type := {
  (** [let userAnswer;] *)
  userAnswer : jsval;
  (** [signal.aborted] *)
  aborted : bool;
  (** the listener of lines 176-179 is registered *)
  listening : bool;
  (** [readline] holds the callback of lines 188-191 *)
  asking : bool;
  (** the promise handed to the caller *)
  result : promise;
  (** [readlineInterface.close()] has run *)
  closed : bool;
  (** what the handler of lines 209-212 has printed with [console.error] *)
  uncaught : list exn;
  (** the delay of the timer of lines 181-185, in whole milliseconds *)
  delay : Z
}.

(** The delay [setTimeout] uses for [1000 * timeout]: a delay that is
    not within 1 .. 2^31-1 is 1, and what is left is cut to whole
    milliseconds. *)
Definition timer_delay (ms : number) : Z :=
  match ms with
  | Fin m e =>
      let n := m * 2 ^ Z.max e 0 in
      let d := 2 ^ Z.max (- e) 0 in
      if ((d <=? n) && (n <=? 2147483647 * d))%Z then n / d else 1
  | _ => 1
  end.

(** The state when [askUser(question, timeout)] has returned its promise,
    the interface being open. [timeout = None] leaves the parameter out. *)
Definition askUser (e : env) (question : string) (timeout : option number) : state :=
  let timeout :=
    match timeout with
    | Some t => t
    | None => QUESTION_TIMEOUT_SECONDS e
    end in
  {| userAnswer := JUndefined;
     aborted := false;
     listening := true;
     asking := true;
     result := Unsettled;
     closed := false;
     uncaught := [];
     delay := timer_delay (num_mul (Int 1000) timeout) |}.

(** [resolve(answer)]: a promise settles once. *)
Definition resolve (p : promise) (answer : string) : promise :=
  match p with
  | Unsettled => Resolved answer
  | _ => p
  end.

(** The handler of lines 209-212: [readlineInterface.close()], then
    [console.error(err)]. *)
Definition uncaughtException (err : exn) (s : state) : state :=
  {| userAnswer := userAnswer s;
     aborted := aborted s;
     listening := listening s;
     asking := asking s;
     result := result s;
     closed := true;
     uncaught := (uncaught s ++ [err])%list;
     delay := delay s |}.

(** [abortController.abort()]. The listener of lines 176-179 runs first:
    its own [abort()] finds the signal aborted and does nothing, and its
    [throw] becomes an uncaught exception. Then [readline]'s listener
    cancels the question. *)
Definition abort (s : state) : state :=
  if aborted s then s
  else
    let s1 :=
      {| userAnswer := userAnswer s;
         aborted := true;
         listening := false;
         asking := false;
         result := result s;
         closed := closed s;
         uncaught := uncaught s;
         delay := delay s |} in
    if listening s
    then uncaughtException (Error "The question timed out...") s1
    else s1.

(** The callback of [setTimeout], lines 181-185. *)
Definition on_timer (s : state) : state :=
  if negb (truthy (userAnswer s)) then abort s else s.

(** The operator enters a line: [readline] calls the callback of lines
    188-191 when a question is outstanding, and drops the line otherwise. *)
Definition on_line (answer : string) (s : state) : state :=
  if closed s || negb (asking s) then s
  else
    {| userAnswer := JString answer;
       aborted := aborted s;
       listening := listening s;
       asking := false;
       result := resolve (result s) answer;
       closed := closed s;
       uncaught := uncaught s;
       delay := delay s |}.

Inductive input : Type :=
| Line (answer : string)
| TimerFires.

Definition step (s : state) (i : input) : state :=
  match i with
  | Line a => on_line a s
  | TimerFires => on_timer s
  end.

Definition run (s : state) (ins : list input) : state := fold_left step ins s.

(** What the event loop delivers when the operator answers [a] at
    [at_ms] milliseconds after the call, or never. *)
Definition timeline (s : state) (answer : option (Z * string)) : list input :=
  match answer with
  | None => [TimerFires]
  | Some (at_ms, a) =>
      if (at_ms <? delay s)%Z then [Line a; TimerFires] else [TimerFires; Line a]
  end.

End Prompt.

(** ** Sample worlds *)

Module Sample.

(** A world in which every call returns, both folders exist, the clock
    stands at the epoch and the callback does what [cb] says. *)
Definition quiet
  (e : env) (bad : call -> option exn)
  (cb : pageh -> list event -> outcome unit * list string) : world :=
  {| w_env := e;
     w_exists := fun _ _ => true;
     w_fail := fun _ c => bad c;
     w_now := fun _ => 0;
     w_toISOString := fun _ => "1970-01-01T00:00:00.000Z";
     w_path_join := fun a b => a ++ b;
     w_processing := cb |}.

Definition no_failure (c : call) : option exn := None.

Definition returns (p : pageh) (h : list event) : outcome unit * list string :=
  (Normal tt, []).

Definition raises (p : pageh) (h : list event) : outcome unit * list string :=
  (Throw (Error "boom"), ["click"]).

Definition env_ok : env := [("BASE_URL", "https://example.org")].

Definition env_profile : env :=
  [("BASE_URL", "https://example.org"); ("USER_DATA_DIR", "/tmp/profile")].

Definition page_close_fails (c : call) : option exn :=
  match c with
  | PageClose _ => Some (Error "Target closed")
  | _ => None
  end.

Definition screenshot_fails (c : call) : option exn :=
  match c with
  | Screenshot _ _ => Some (Error "Target closed")
  | _ => None
  end.

(** Everything works and the callback returns. *)
Definition calm : world := quiet env_ok no_failure returns.

(** As [calm], with a persistent profile configured. *)
Definition settled : world := quiet env_profile no_failure returns.

(** The environment is empty: no [BASE_URL]. *)
Definition bare : world := quiet [] no_failure returns.

(** The callback returns and [page.close()] throws. *)
Definition stuck : world := quiet env_ok page_close_fails returns.

(** The callback throws and [page.screenshot()] throws. *)
Definition blind : world := quiet env_ok screenshot_fails raises.

(** The page [main] opens in a world without a persistent profile. *)
Definition its_page (w : world) : pageh := PageOf (EphemeralSession (options w)).

End Sample.

(** ** Reading a history *)

(** The calls that acquire the session: a launch, [newPage], [goto]. *)
Definition is_acquisition (ev : event) : bool :=
  match ev with
  | Called (LaunchPersistentContext _ _)
  | Called (Launch _)
  | Called (NewPage _)
  | Called (Goto _ _) => true
  | _ => false
  end.

Definition acquisitions (h : list event) : list event := filter is_acquisition h.

Definition is_processing (ev : event) : bool :=
  match ev with
  | Processing _ => true
  | _ => false
  end.

Definition callback_ran (h : list event) : bool := existsb is_processing h.

(** The events that came before the callback was invoked. *)
Fixpoint before_callback (h : list event) : list event :=
  match h with
  | [] => []
  | ev :: rest => if is_processing ev then [] else ev :: before_callback rest
  end.

Definition is_exit (ev : event) : bool :=
  match ev with
  | ProcessExit _ => true
  | _ => false
  end.

Definition is_page_close (ev : event) : bool :=
  match ev with
  | Called (PageClose _) => true
  | _ => false
  end.

Definition is_context_close (ev : event) : bool :=
  match ev with
  | Called (ContextClose _) => true
  | _ => false
  end.

Definition is_readline_close (ev : event) : bool :=
  match ev with
  | ReadlineClose => true
  | _ => false
  end.

(** Every call among the events [evs], which follow the history [h],
    returned: the world, asked at the history in which the call was made,
    let it return. ([fs.existsSync] is not asked: it does not throw.) *)
Fixpoint all_returned (w : world) (h evs : list event) : bool :=
  match evs with
  | [] => true
  | ev :: rest =>
      match ev with
      | Called (ExistsSync _) => true
      | Called c =>
          match w_fail w h c with
          | None => true
          | Some _ => false
          end
      | _ => true
      end
      && all_returned w (h ++ [ev]) rest
  end.

(** An event [setup] may leave: a line on the console, or a call of the
    file system or of [logging.js]. *)
Definition is_setup_event (ev : event) : bool :=
  match ev with
  | ConsoleLog _
  | ConsoleLogValue _ _
  | Called (ExistsSync _)
  | Called (MkdirSync _)
  | Called (LoggingSetup _ _) => true
  | _ => false
  end.

(** What [main] acquires when nothing fails, in the order it does. *)
Definition expected_acquisitions (w : world) : list event :=
  let e := w_env w in
  let o := options w in
  if truthy (USER_DATA_DIR e)
  then [Called (LaunchPersistentContext (USER_DATA_DIR e) o);
        Called (NewPage (PersistentSession (USER_DATA_DIR e) o));
        Called (Goto (PageOf (PersistentSession (USER_DATA_DIR e) o)) (BASE_URL e))]
  else [Called (Launch o);
        Called (NewPage (EphemeralSession o));
        Called (Goto (PageOf (EphemeralSession o)) (BASE_URL e))].

(** The events of a [waitEntirePageToLoad] that returns. *)
Definition readiness_events (p : pageh) (seconds : number) : list event :=
  [ConsoleTime "Page fully loaded.";
   Called (WaitForLoadState p "domcontentloaded");
   Called (WaitForLoadState p "load");
   Called (WaitForLoadState p "networkidle");
   Called (WaitForTimeout p (num_mul (Int 1000) seconds));
   ConsoleTimeEnd "Page fully loaded."].

(** The file name as the specification words it: the demo tag, the label
    and a dash when there is a label, [screenshot-], the time stamp with
    [:] and [.] turned into [-], and [.png]. *)
Definition dash_for_colon_dot (c : ascii) : ascii :=
  if (Ascii.eqb c ":" || Ascii.eqb c ".")%bool then "-"%char else c.

Definition spec_timestamp (iso : string) : string :=
  string_of_list_ascii (map dash_for_colon_dot (list_ascii_of_string iso)).

Definition spec_file_name (d : bool) (label : string) (iso : string) : string :=
  (if d then "DEMO-" else "")
  ++ match label with
     | EmptyString => ""
     | _ => label ++ "-"
     end
  ++ "screenshot-" ++ spec_timestamp iso ++ ".png".

(** A string holds neither [:] nor [.]. *)
Fixpoint path_safe (s : string) : bool :=
  match s with
  | EmptyString => true
  | String c r => negb (Ascii.eqb c ":" || Ascii.eqb c ".") && path_safe r
  end.

(** ** Words of the specification *)

(** An environment value the numeric defaults replace: missing, not an
    integer, or zero. *)
Definition unusable (v : jsval) : Prop :=
  v = JUndefined \/ parseInt10 v = NaN \/ parseInt10 v = Int 0.

(** The label a call of [takeScreenshot] works with. *)
Definition label_of (prefix : option string) : string :=
  match prefix with
  | Some l => l
  | None => ""
  end.

(** How [setup] can end: it returns only when [BASE_URL] is set and every
    call it made returned, it neither exits the process nor hangs, and it
    leaves only events of its own kind. *)
Definition setup_post (w : world) (s : state) (r : outcome unit * state) : Prop :=
  match r with
  | (Normal _, s') =>
      truthy (BASE_URL (w_env w)) = true
      /\ exists evs,
           forallb is_setup_event evs = true
           /\ all_returned w (hist s) evs = true
           /\ s' = record evs s
  | (Throw _, s') =>
      exists evs, forallb is_setup_event evs = true /\ s' = record evs s
  | _ => False
  end.

(** ** How the process ends

    [main.js] ends the process itself only at [process.exit(0)], line 146.
    When the promise of [main] is rejected and the caller leaves the
    rejection alone, Node raises it as an uncaught exception, and the
    handler of lines 209-212 takes it: the process is not ended by it. It
    then ends by itself, with status 0, once nothing keeps the event loop
    alive; the prompt interface is closed by then (line 142, line 210), and
    what is left to keep it alive is a browser that was launched and not
    closed. [None]: the process does not end. *)
Definition exit_status (r : outcome unit * state) : option Z :=
  match r with
  | (Exited code, _) => Some code
  | (Pending, _) => None
  | (_, s) =>
      match context s with
      | None => Some 0
      | Some _ => None
      end
  end.

(** ** More ways to read a history *)

Definition is_console_error (ev : event) : bool :=
  match ev with
  | ConsoleError _ _ => true
  | _ => false
  end.

Definition is_screenshot (ev : event) : bool :=
  match ev with
  | Called (Screenshot _ _) => true
  | _ => false
  end.

Definition is_console_log (ev : event) : bool :=
  match ev with
  | ConsoleLog _ | ConsoleLogValue _ _ => true
  | _ => false
  end.

(** What [console.log] printed, in order. *)
Definition console_lines (h : list event) : list event := filter is_console_log h.

(** [page] has been assigned. *)
Definition has_page (s : state) : bool :=
  match page s with
  | Some _ => true
  | None => false
  end.

(** The awaited call returned or threw. *)
Definition settles (r : outcome unit) : Prop :=
  r = Normal tt \/ exists e, r = Throw e.

(** ** The prompt channel among the rest of the program

    Besides the operator's lines and the timer, the interface is reached
    by the teardown of [main] (line 142 closes it), by the end of the
    input stream ([readline] then closes the interface itself) and by any
    exception thrown elsewhere and not caught (the handler of lines
    209-212 closes it and prints the exception). *)
Inductive occurrence : Type :=
| Delivered (i : Prompt.input)
| TeardownCloses
| InputEnds
| Thrown (e : exn).

(** [readlineInterface.close()] *)
Definition close_interface (s : Prompt.state) : Prompt.state :=
  {| Prompt.userAnswer := Prompt.userAnswer s;
     Prompt.aborted := Prompt.aborted s;
     Prompt.listening := Prompt.listening s;
     Prompt.asking := Prompt.asking s;
     Prompt.result := Prompt.result s;
     Prompt.closed := true;
     Prompt.uncaught := Prompt.uncaught s;
     Prompt.delay := Prompt.delay s |}.

Definition happen (s : Prompt.state) (o : occurrence) : Prompt.state :=
  match o with
  | Delivered i => Prompt.step s i
  | TeardownCloses | InputEnds => close_interface s
  | Thrown e => Prompt.uncaughtException e s
  end.

Definition course (s : Prompt.state) (os : list occurrence) : Prompt.state :=
  fold_left happen os s.

(** The exceptions thrown elsewhere, in order. *)
Definition thrown_elsewhere (os : list occurrence) : list exn :=
  flat_map (fun o => match o with Thrown e => [e] | _ => [] end) os.

(** What holds of the channel when [elsewhere] are the exceptions thrown
    elsewhere so far: the listener of lines 176-179 is registered until the
    signal is aborted; an aborted signal has closed the interface and
    cancelled the question; the promise is not rejected; and the handler
    has printed the exceptions thrown elsewhere, with the time-out error
    among them once when the signal is aborted and not at all when it is
    not. *)
Definition channel_inv (s : Prompt.state) (elsewhere : list exn) : Prop :=
  Prompt.listening s = negb (Prompt.aborted s)
  /\ (Prompt.aborted s = true -> Prompt.closed s = true /\ Prompt.asking s = false)
  /\ (forall err, Prompt.result s <> Prompt.Rejected err)
  /\ exists before after,
       elsewhere = (before ++ after)%list
       /\ Prompt.uncaught s
          = (before
             ++ (if Prompt.aborted s then [Error "The question timed out..."] else [])
             ++ after)%list
       /\ (Prompt.aborted s = false -> after = []).

(** ** More sample worlds *)

Module Scenario.

Definition new_page_fails (c : call) : option exn :=
  match c with
  | NewPage _ => Some (Error "Browser closed")
  | _ => None
  end.

Definition is_mkdir (path : string) (ev : event) : bool :=
  match ev with
  | Called (MkdirSync p) => String.eqb p path
  | _ => false
  end.

(** The browser launches and [newPage] throws. *)
Definition orphan : world := Sample.quiet Sample.env_ok new_page_fails Sample.returns.

(** A disk on which a folder exists once [mkdirSync] has been called for
    it; no call fails. *)
Definition fresh_disk : world :=
  {| w_env := Sample.env_ok;
     w_exists := fun h path => existsb (is_mkdir path) h;
     w_fail := fun _ _ => None;
     w_now := fun _ => 0;
     w_toISOString := fun _ => "1970-01-01T00:00:00.000Z";
     w_path_join := fun a b => a ++ b;
     w_processing := Sample.returns |}.

(** Everything works and the callback throws. *)
Definition failing : world := Sample.quiet Sample.env_ok Sample.no_failure Sample.raises.

(** A persistent profile is configured and [BASE_URL] is not. *)
Definition unaddressed : world :=
  Sample.quiet [("USER_DATA_DIR", "/tmp/profile")] Sample.no_failure Sample.returns.

Definition goto_fails (c : call) : option exn :=
  match c with
  | Goto _ _ => Some (Error "net::ERR_NAME_NOT_RESOLVED")
  | _ => None
  end.

(** The navigation to the base URL throws. *)
Definition unreachable : world := Sample.quiet Sample.env_ok goto_fails Sample.returns.

End Scenario.

(** * Properties *)

(** ** Numbers read from the environment *)

Lemma num_or_default (x d : number) :
  x = NaN \/ x = Int 0 -> num_or x d = d.
Proof. intros [-> | ->]; reflexivity. Qed.

Lemma num_or_truthy (x d : number) :
  truthy (JNumber d) = true -> truthy (JNumber (num_or x d)) = true.
Proof.
  intros Hd. unfold num_or.
  destruct (truthy (JNumber x)) eqn:E; [exact E | exact Hd].
Qed.

Lemma num_or_nonzero (x d : number) :
  truthy (JNumber d) = true -> num_or x d <> Int 0 /\ num_or x d <> NaN.
Proof.
  intros Hd. pose proof (num_or_truthy x d Hd) as H.
  split; intros E; rewrite E in H; discriminate H.
Qed.

(** Doubles at work: an integer beyond 2^53 is the nearest double, a tie
    going to the even one; [parseInt] gives that double; 3 times the double
    nearest to 0.1 is not the double nearest to 0.3; and a product that is
    too large is an infinity. *)
Example doubles_at_work :
  Int (2 ^ 53 + 1) = Fin (2 ^ 53) 0
  /\ Int (2 ^ 53 + 3) = Fin (2 ^ 53 + 4) 0
  /\ parseInt10 (JString "9007199254740993") = Int 9007199254740992
  /\ parseInt10 (JString " -12.5") = Int (-12)
  /\ parseInt10 (JString "-0") = Int 0
  /\ num_mul (Int 3) (round 1 (-1)) = Fin 3 (-1)
  /\ num_mul (Int 3) (Fin 3602879701896397 (-55)) = Fin 1351079888211149 (-52)
  /\ num_mul (Int 1000) (Fin 3602879701896397 (-55)) = Int 100
  /\ num_mul (Int 1000) (Int (10 ^ 306)) = Inf false
  /\ num_mul (Int 1000) NaN = NaN.
Proof. repeat split; vm_compute; reflexivity. Qed.

Lemma unusable_parse (v : jsval) :
  unusable v -> parseInt10 v = NaN \/ parseInt10 v = Int 0.
Proof. intros [-> | H]; [left; reflexivity | exact H]. Qed.

(** C10. Whenever the environment value of
    [DEFAULT_ADDITIONAL_WAIT_TIME_SECONDS] (of [QUESTION_TIMEOUT_SECONDS])
    is missing, does not parse as an integer or parses to 0, the resolved
    value is the default 3 (30); and no environment at all, the value ["0"]
    included, resolves either of them to 0. *)
Theorem numeric_defaults (e : env) :
  (unusable (env_get e "DEFAULT_ADDITIONAL_WAIT_TIME_SECONDS") ->
   DEFAULT_ADDITIONAL_WAIT_TIME_SECONDS e = Int 3)
  /\ (unusable (env_get e "QUESTION_TIMEOUT_SECONDS") ->
      QUESTION_TIMEOUT_SECONDS e = Int 30)
  /\ DEFAULT_ADDITIONAL_WAIT_TIME_SECONDS e <> Int 0
  /\ QUESTION_TIMEOUT_SECONDS e <> Int 0.
Proof.
  repeat split.
  - intros H. apply num_or_default, unusable_parse, H.
  - intros H. apply num_or_default, unusable_parse, H.
  - apply num_or_nonzero. reflexivity.
  - apply num_or_nonzero. reflexivity.
Qed.

(** The value ["0"] for the wait and a value that is no number for the
    prompt timeout: both fall back to the defaults. *)
Lemma numeric_defaults_witness :
  DEFAULT_ADDITIONAL_WAIT_TIME_SECONDS
    [("DEFAULT_ADDITIONAL_WAIT_TIME_SECONDS", "0"); ("QUESTION_TIMEOUT_SECONDS", "soon")]
  = Int 3
  /\ QUESTION_TIMEOUT_SECONDS
       [("DEFAULT_ADDITIONAL_WAIT_TIME_SECONDS", "0"); ("QUESTION_TIMEOUT_SECONDS", "soon")]
     = Int 30.
Proof.
  destruct (numeric_defaults
              [("DEFAULT_ADDITIONAL_WAIT_TIME_SECONDS", "0");
               ("QUESTION_TIMEOUT_SECONDS", "soon")]) as (Hwait & Hask & _).
  split.
  - apply Hwait. right. right. reflexivity.
  - apply Hask. right. left. reflexivity.
Defined.

(** ** The name of a screenshot *)

Lemma colon_or_dot_dash (c : ascii) :
  (if colon_or_dot c then "-"%char else c) = dash_for_colon_dot c.
Proof. destruct c as [[] [] [] [] [] [] [] []]; reflexivity. Qed.

Lemma replace_is_map (s : string) : replace_colon_dot s = spec_timestamp s.
Proof.
  unfold spec_timestamp. induction s as [|c r IH]; simpl; [reflexivity|].
  now rewrite IH, colon_or_dot_dash.
Qed.

Lemma replace_path_safe (s : string) : path_safe (replace_colon_dot s) = true.
Proof.
  induction s as [|c r IH]; simpl; [reflexivity|].
  rewrite IH, andb_true_r.
  destruct c as [[] [] [] [] [] [] [] []]; reflexivity.
Qed.

Lemma replace_length (s : string) :
  String.length (replace_colon_dot s) = String.length s.
Proof. induction s as [|c r IH]; simpl; congruence. Qed.

Lemma file_name_spec (d : bool) (label iso : string) :
  screenshotFileName d label iso = spec_file_name d label iso.
Proof.
  unfold screenshotFileName, spec_file_name.
  rewrite replace_is_map.
  destruct label; reflexivity.
Qed.

(** What [takeScreenshot] does with a page: one call of the engine, and
    one line on the console when that call returns. *)
Lemma takeScreenshot_runs (w : world) (p : pageh) (prefix : option string) (s : state) :
  let name :=
    screenshotFileName (DEMO_MODE (w_env w)) (label_of prefix)
      (w_toISOString w (w_now w (hist s))) in
  let shot := Screenshot p (w_path_join w (SCREENSHOT_FOLDER_PATH (w_env w)) name) in
  takeScreenshot w (Some p) prefix s
  = match w_fail w (hist s) shot with
    | Some err => (Throw err, record [Called shot] s)
    | None => (Normal tt, record [Called shot; ConsoleLog ("Screenshot taken: " ++ name)] s)
    end.
Proof.
  intros name shot. subst name shot. unfold label_of.
  unfold takeScreenshot, bind, now, deref, ret, invoke, emit.
  destruct (w_fail w (hist s) _); [reflexivity|].
  unfold record; cbn [hist context page]. now rewrite <- app_assoc.
Qed.

(** C7. For every demo mode, label and clock time, the file a screenshot
    goes to is named: [DEMO-] exactly in demo mode, then the label and [-]
    exactly when the label is not empty, then [screenshot-], then the ISO
    time stamp in which every [:] and [.] has become [-] (and nothing else
    has changed), then [.png]; the path given to the engine is
    [path.join] of the configured screenshot folder and that name. *)
Theorem screenshot_naming (w : world) (p : pageh) (prefix : option string) (s : state) :
  let e := w_env w in
  let iso := w_toISOString w (w_now w (hist s)) in
  let name := spec_file_name (DEMO_MODE e) (label_of prefix) iso in
  let shot := Called (Screenshot p (w_path_join w (SCREENSHOT_FOLDER_PATH e) name)) in
  screenshotFileName (DEMO_MODE e) (label_of prefix) iso = name
  /\ path_safe (spec_timestamp iso) = true
  /\ String.length (spec_timestamp iso) = String.length iso
  /\ exists rest,
       hist (snd (takeScreenshot w (Some p) prefix s)) = (hist s ++ shot :: rest)%list
       /\ (rest = [] \/ rest = [ConsoleLog ("Screenshot taken: " ++ name)]).
Proof.
  intros e iso name shot. subst name shot.
  rewrite <- replace_is_map, <- file_name_spec.
  split; [reflexivity|]. split; [apply replace_path_safe|]. split; [apply replace_length|].
  rewrite takeScreenshot_runs. fold e. fold iso.
  destruct (w_fail w (hist s) _); eexists; (split; [reflexivity|]); auto.
Qed.

(** Demo mode, the label ["error"], the clock at the epoch. *)
Example screenshot_name_example :
  screenshotFileName true "error" "1970-01-01T00:00:00.000Z"
  = "DEMO-error-screenshot-1970-01-01T00-00-00-000Z.png"
  /\ screenshotFileName false "" "1970-01-01T00:00:00.000Z"
     = "screenshot-1970-01-01T00-00-00-000Z.png".
Proof. split; reflexivity. Qed.

(** ** Running a computation symbolically *)

Lemma fold_left_app_concat {A} (ls : list (list A)) (base : list A) :
  fold_left (@app A) ls base = (base ++ List.concat ls)%list.
Proof.
  revert base. induction ls as [|l ls IH]; intros base; simpl.
  - now rewrite app_nil_r.
  - now rewrite IH, app_assoc.
Qed.

(** The term whose value decides how the computation [t] goes on. *)
Ltac scrutinee t :=
  lazymatch t with
  | w_fail _ _ _ => t
  | w_exists _ _ _ => t
  | w_processing _ _ _ => t
  | truthy _ => t
  | setup _ _ => t
  | match ?x with _ => _ end => scrutinee x
  | ?f _ => scrutinee f
  | _ => t
  end.

Ltac head_term :=
  lazymatch goal with
  | |- ?T = _ -> _ => scrutinee T
  end.

Ltac run_js :=
  cbv beta iota zeta delta
    [bind ret throw emit invoke existsSync now deref get_page get_context
     set_page set_context process_exit negb andb orb fst snd record
     hist context page try_catch try_finally processing].

Ltac split_on x :=
  lazymatch x with
  | w_fail _ _ _ => destruct x eqn:?
  | w_exists _ _ _ => destruct x eqn:?
  | truthy _ => destruct x eqn:?
  | w_processing _ _ _ => destruct x as [[[] | ? | ? | ] ?] eqn:?
  end.

(** Appends nested to the left, as [record] leaves them, are the base
    followed by the parts in order. *)
Ltac chunks t acc :=
  lazymatch t with
  | (?l ++ ?x)%list => chunks l constr:(x :: acc)
  | _ => constr:((t, acc))
  end.

Ltac flatten_in H :=
  lazymatch type of H with
  | _ = ?X =>
      let p := chunks X constr:(@nil (list event)) in
      lazymatch p with
      | (?b, ?ls) =>
          change X with (fold_left (@app event) ls b) in H;
          rewrite fold_left_app_concat in H;
          cbn [List.concat app] in H
      end
  end.

(** At the end of a path the outcome and the final state are known. *)
Ltac arrive :=
  let E := fresh "E" in
  intros E; apply pair_equal_spec in E; destruct E as [<- <-].

Ltac arrive_with_history :=
  let E := fresh "E" in
  let Hh := fresh "Hh" in
  intros E Hh; apply pair_equal_spec in E; destruct E as [<- <-];
  cbv beta iota delta [hist] in Hh; flatten_in Hh;
  rewrite Hh; clear Hh.

(** ** The failure capture *)

(** C2, as amended. On a page, the capture call returns, after one line
    ["Screenshot taken: ..."] on the console, whenever the engine's
    screenshot call returns; it handles no error itself: what the engine's
    screenshot call throws comes out of the capture call, with nothing
    logged. *)
Theorem capture_propagates (w : world) (p : pageh) (prefix : option string) (s : state) :
  let name :=
    screenshotFileName (DEMO_MODE (w_env w)) (label_of prefix)
      (w_toISOString w (w_now w (hist s))) in
  let shot := Screenshot p (w_path_join w (SCREENSHOT_FOLDER_PATH (w_env w)) name) in
  let r := takeScreenshot w (Some p) prefix s in
  (w_fail w (hist s) shot = None ->
   r = (Normal tt, record [Called shot; ConsoleLog ("Screenshot taken: " ++ name)] s))
  /\ (forall err, w_fail w (hist s) shot = Some err ->
      r = (Throw err, record [Called shot] s)).
Proof.
  intros name shot r. subst r. rewrite takeScreenshot_runs. fold name. fold shot.
  split.
  - intros ->. reflexivity.
  - intros err ->. reflexivity.
Qed.

(** A page whose screenshot succeeds, and one whose screenshot throws. *)
Lemma capture_propagates_witness :
  fst (takeScreenshot Sample.calm (Some (Sample.its_page Sample.calm)) (Some "error") init)
  = Normal tt
  /\ fst (takeScreenshot Sample.blind (Some (Sample.its_page Sample.blind)) (Some "error") init)
     = Throw (Error "Target closed").
Proof.
  split.
  - rewrite (proj1 (capture_propagates _ _ _ _)); reflexivity.
  - rewrite (proj2 (capture_propagates _ _ _ _) (Error "Target closed")); reflexivity.
Defined.

(** C2, as stated, fails: the callback throws, the page exists, the
    engine's screenshot call throws ["Target closed"], and that error comes
    out of the capture call and out of the [catch] block of [main]; no
    ["Screenshot taken"] line is printed. *)
Lemma capture_raises :
  takeScreenshot Sample.blind (Some (Sample.its_page Sample.blind)) (Some "error") init
  = (Throw (Error "Target closed"),
     record [Called (Screenshot (Sample.its_page Sample.blind)
                       "data/screenshots/DEMO-error-screenshot-1970-01-01T00-00-00-000Z.png")]
       init)
  /\ fst (try_catch (main_try Sample.blind) (main_catch Sample.blind) init)
     = Throw (Error "Target closed").
Proof. split; vm_compute; reflexivity. Qed.

(** ** Waiting for the page *)

(** An integer below 2^53 in magnitude is a double, and a product of two
    of them that stays below 2^53 is exact. *)
Lemma Int_exact (n : Z) : Z.abs n < 2 ^ 53 -> Int n = Fin n 0.
Proof.
  intros Hn. unfold Int, round.
  destruct (Z.eqb_spec n 0) as [-> | Hz]; [reflexivity|].
  assert (Ha : 0 < Z.abs n) by lia.
  assert (Hb : bits (Z.abs n) <= 53).
  { unfold bits. apply Z.log2_lt_pow2 in Hn; lia. }
  replace (0 <? Z.max (bits (Z.abs n) - 53) (- 1074 - 0))%Z with false
    by (symmetry; apply Z.ltb_ge; lia).
  destruct (Z.eqb_spec (Z.abs n) 0) as [|_]; [lia|].
  replace (1024 <? bits (Z.abs n) + 0)%Z with false
    by (symmetry; apply Z.ltb_ge; lia).
  unfold finite. change (0 <=? 0)%Z with true. cbv iota.
  destruct (Z.ltb_spec n 0); f_equal; lia.
Qed.

Lemma mul_exact (a b : Z) :
  Z.abs a < 2 ^ 53 -> Z.abs b < 2 ^ 53 -> Z.abs (a * b) < 2 ^ 53 ->
  num_mul (Int a) (Int b) = Int (a * b).
Proof.
  intros Ha Hb Hab. rewrite (Int_exact a Ha), (Int_exact b Hb). reflexivity.
Qed.

Lemma milliseconds_exact (n : Z) :
  Z.abs n <= 9007199254740 -> num_mul (Int 1000) (Int n) = Int (1000 * n).
Proof. intros Hn. apply mul_exact; lia. Qed.

(** C6. For every page and every additional wait,
    [waitEntirePageToLoad] returns only after the engine's waits for
    ["domcontentloaded"], ["load"] and ["networkidle"] have each returned,
    in this order, and after them the engine's timeout of 1000 times the
    additional seconds has returned: for a whole number of seconds n (up
    to 9007199254740 in magnitude) that is 1000 n milliseconds exactly.
    The seconds are the argument or, when it is left out, the configured
    default, which is 3, so 3000 milliseconds, when the environment gives
    no usable value. *)
Theorem readiness_ordering
  (w : world) (page : option pageh) (additional : option number) (s s' : state) :
  let seconds :=
    match additional with
    | Some n => n
    | None => DEFAULT_ADDITIONAL_WAIT_TIME_SECONDS (w_env w)
    end in
  waitEntirePageToLoad w page additional s = (Normal tt, s') ->
  exists p,
    page = Some p
    /\ s' = record (readiness_events p seconds) s
    /\ all_returned w (hist s) (readiness_events p seconds) = true
    /\ (forall n : Z,
          seconds = Int n -> Z.abs n <= 9007199254740 ->
          nth_error (readiness_events p seconds) 4
          = Some (Called (WaitForTimeout p (Int (1000 * n)))))
    /\ (additional = None ->
        unusable (env_get (w_env w) "DEFAULT_ADDITIONAL_WAIT_TIME_SECONDS") ->
        seconds = Int 3
        /\ nth_error (readiness_events p seconds) 4
           = Some (Called (WaitForTimeout p (Int 3000)))).
Proof.
  intros seconds. subst seconds. destruct s as [h c pg].
  unfold waitEntirePageToLoad, readiness_events.
  destruct page as [p|]; run_js; [|discriminate].
  repeat (let x := head_term in split_on x; run_js); try discriminate.
  intros E. apply pair_equal_spec in E. destruct E as [_ <-].
  exists p. split; [reflexivity|]. split; [|split; [|split]].
  - rewrite <- !app_assoc. reflexivity.
  - cbn [all_returned andb].
    repeat match goal with H : w_fail _ _ _ = None |- _ => rewrite H; clear H end.
    reflexivity.
  - intros n -> Hn. cbn [nth_error]. now rewrite milliseconds_exact.
  - intros -> H.
    assert (Hd : DEFAULT_ADDITIONAL_WAIT_TIME_SECONDS (w_env w) = Int 3)
      by (apply num_or_default, unusable_parse, H).
    rewrite Hd. split; reflexivity.
Qed.

(** When no call of the engine fails, the wait does return. *)
Lemma readiness_total (w : world) (p : pageh) (additional : option number) (s : state) :
  (forall h c, w_fail w h c = None) ->
  fst (waitEntirePageToLoad w (Some p) additional s) = Normal tt.
Proof.
  intros Hok. unfold waitEntirePageToLoad. run_js. rewrite !Hok. reflexivity.
Qed.

(** The default wait in a world where the engine never fails: the three
    signals, then 3000 milliseconds, each call returning. *)
Lemma readiness_ordering_witness :
  waitEntirePageToLoad Sample.calm (Some (Sample.its_page Sample.calm)) None init
  = (Normal tt, record (readiness_events (Sample.its_page Sample.calm) (Int 3)) init)
  /\ nth_error (readiness_events (Sample.its_page Sample.calm) (Int 3)) 4
     = Some (Called (WaitForTimeout (Sample.its_page Sample.calm) (Int 3000)))
  /\ all_returned Sample.calm [] (readiness_events (Sample.its_page Sample.calm) (Int 3))
     = true.
Proof.
  assert (H : waitEntirePageToLoad Sample.calm (Some (Sample.its_page Sample.calm)) None init
              = (Normal tt,
                 record (readiness_events (Sample.its_page Sample.calm) (Int 3)) init))
    by reflexivity.
  split; [exact H|].
  destruct (readiness_ordering Sample.calm _ None init _ H)
    as (p & Hp & _ & Hret & _ & Hdef).
  injection Hp as <-.
  split; [| exact Hret].
  apply (Hdef eq_refl). left. reflexivity.
Defined.

(** Half a second is 500 milliseconds. *)
Example half_a_second :
  waitEntirePageToLoad Sample.calm (Some (Sample.its_page Sample.calm))
    (Some (Fin 1 (-1))) init
  = (Normal tt,
     record [ConsoleTime "Page fully loaded.";
             Called (WaitForLoadState (Sample.its_page Sample.calm) "domcontentloaded");
             Called (WaitForLoadState (Sample.its_page Sample.calm) "load");
             Called (WaitForLoadState (Sample.its_page Sample.calm) "networkidle");
             Called (WaitForTimeout (Sample.its_page Sample.calm) (Int 500));
             ConsoleTimeEnd "Page fully loaded."] init).
Proof. reflexivity. Qed.

(** ** [setup] *)

Lemma folder_truthy (s : string) : truthy (JString (s ++ "/")) = true.
Proof. destruct s; reflexivity. Qed.

Lemma base_url_truthy (e : env) :
  truthy (BASE_URL e) = truthy (env_get e "BASE_URL").
Proof.
  unfold BASE_URL. destruct (truthy (env_get e "BASE_URL")) eqn:E; [|reflexivity].
  apply folder_truthy.
Qed.

Lemma user_agent_truthy (e : env) : truthy (USER_AGENT e) = true.
Proof.
  unfold USER_AGENT, or_else.
  destruct (truthy (env_get e "USER_AGENT")) eqn:E; [exact E | reflexivity].
Qed.

Lemma wait_default_truthy (e : env) :
  truthy (JNumber (DEFAULT_ADDITIONAL_WAIT_TIME_SECONDS e)) = true.
Proof. apply num_or_truthy. reflexivity. Qed.

Lemma setup_cases (w : world) (s : state) : setup_post w s (setup w s).
Proof.
  destruct s as [h c p].
  unfold setup, assertFolderPathValue, assertEnvVariableValue, setup_post.
  unfold LOGS_FOLDER_PATH, SCREENSHOT_FOLDER_PATH. rewrite !folder_truthy.
  run_js.
  repeat (match goal with |- ?G => let x := scrutinee G in split_on x end; run_js).
  all: rewrite <- ?app_assoc.
  all: lazymatch goal with
       | |- _ = true /\ _ =>
           split; [first [assumption | reflexivity]|];
           eexists; split; [| split; [| reflexivity]]; [reflexivity|];
           cbn [all_returned andb app];
           repeat match goal with
                  | H : w_fail _ _ _ = None |- _ => rewrite H; clear H
                  end;
           reflexivity
       | _ => eexists; split; [| reflexivity]; reflexivity
       end.
Qed.

(** With the file system and [logging.js] behaving, a missing [BASE_URL]
    is what [setup] reports. *)
Lemma setup_reports_base_url (w : world) (s : state) :
  truthy (env_get (w_env w) "BASE_URL") = false ->
  (forall h c, is_setup_event (Called c) = true -> w_fail w h c = None) ->
  fst (setup w s) = Throw (Error "BASE_URL environment variable is not set.").
Proof.
  intros Hb Hok. rewrite <- base_url_truthy in Hb.
  destruct (setup w s) as [r s'] eqn:E. cbn [fst]. revert E.
  destruct s as [h c p].
  unfold setup, assertFolderPathValue, assertEnvVariableValue.
  unfold LOGS_FOLDER_PATH, SCREENSHOT_FOLDER_PATH. rewrite !folder_truthy, Hb.
  run_js.
  repeat (let x := head_term in split_on x; run_js).
  all: try match goal with
       | H : w_fail _ _ _ = Some _ |- _ => rewrite Hok in H by reflexivity; discriminate
       end.
  all: intros E; apply pair_equal_spec in E; destruct E as [<- _]; reflexivity.
Qed.

Lemma setup_event_quiet (ev : event) :
  is_setup_event ev = true ->
  is_acquisition ev = false /\ is_processing ev = false /\ is_exit ev = false
  /\ is_page_close ev = false /\ is_context_close ev = false.
Proof. destruct ev as [| | | | |[]| | | |]; simpl; intros; repeat split; congruence. Qed.

Lemma filter_setup (f : event -> bool) (evs rest : list event) :
  (forall ev, is_setup_event ev = true -> f ev = false) ->
  forallb is_setup_event evs = true ->
  filter f (evs ++ rest) = filter f rest.
Proof.
  intros Hf. induction evs as [|ev evs IH]; simpl; [reflexivity|].
  intros H. apply andb_true_iff in H as [H1 H2].
  rewrite (Hf ev H1). auto.
Qed.

Lemma existsb_setup (f : event -> bool) (evs rest : list event) :
  (forall ev, is_setup_event ev = true -> f ev = false) ->
  forallb is_setup_event evs = true ->
  existsb f (evs ++ rest) = existsb f rest.
Proof.
  intros Hf. induction evs as [|ev evs IH]; simpl; [reflexivity|].
  intros H. apply andb_true_iff in H as [H1 H2].
  rewrite (Hf ev H1). auto.
Qed.

Lemma acquisitions_setup (evs rest : list event) :
  forallb is_setup_event evs = true ->
  filter is_acquisition (evs ++ rest) = filter is_acquisition rest.
Proof. apply filter_setup. intros ev H. apply setup_event_quiet, H. Qed.

Lemma callback_ran_setup (evs rest : list event) :
  forallb is_setup_event evs = true ->
  existsb is_processing (evs ++ rest) = existsb is_processing rest.
Proof. apply existsb_setup. intros ev H. apply setup_event_quiet, H. Qed.

Lemma exit_setup (evs rest : list event) :
  forallb is_setup_event evs = true ->
  existsb is_exit (evs ++ rest) = existsb is_exit rest.
Proof. apply existsb_setup. intros ev H. apply setup_event_quiet, H. Qed.

Lemma context_close_setup (evs rest : list event) :
  forallb is_setup_event evs = true ->
  existsb is_context_close (evs ++ rest) = existsb is_context_close rest.
Proof. apply existsb_setup. intros ev H. apply setup_event_quiet, H. Qed.

Lemma before_callback_setup (evs rest : list event) :
  forallb is_setup_event evs = true ->
  before_callback (evs ++ rest) = (evs ++ before_callback rest)%list.
Proof.
  induction evs as [|ev evs IH]; simpl; [reflexivity|].
  intros H. apply andb_true_iff in H as [H1 H2].
  destruct (setup_event_quiet ev H1) as (_ & -> & _). now rewrite IH.
Qed.

Lemma acquisitions_callback (l : list string) (rest : list event) :
  filter is_acquisition (map Callback l ++ rest) = filter is_acquisition rest.
Proof. induction l; simpl; auto. Qed.

(** ** [main], path by path *)

Ltac use_setup :=
  let x := head_term in
  lazymatch x with
  | setup ?w ?s =>
      let H := fresh "Hsetup" in
      let evs := fresh "evs" in
      let Hq := fresh "Hquiet" in
      let Hb := fresh "Hbase" in
      let Hr := fresh "Hreturned" in
      pose proof (setup_cases w s) as H;
      destruct x as [[[] | ? | ? | ] ?];
      cbv beta iota delta [setup_post hist] in H;
      [ destruct H as (Hb & evs & Hq & Hr & ->)
      | destruct H as (evs & Hq & ->)
      | contradiction
      | contradiction ]
  end.

Ltac unfold_main :=
  unfold main, main_try, main_catch, main_finally, takeScreenshot,
    waitEntirePageToLoad, launchPersistentContext, launch, newPage, init.

Ltac walk :=
  repeat (run_js; first [use_setup | let x := head_term in split_on x]);
  run_js.

Ltac compute_history :=
  cbn [callback_ran existsb is_processing is_exit is_context_close is_page_close
       before_callback acquisitions filter is_acquisition orb].

Ltac read_history :=
  repeat (compute_history;
          progress (rewrite ?callback_ran_setup, ?before_callback_setup,
                      ?acquisitions_setup, ?exit_setup, ?context_close_setup,
                      ?acquisitions_callback by assumption));
  compute_history.

Lemma all_returned_app (w : world) (a b h : list event) :
  all_returned w h (a ++ b) = all_returned w h a && all_returned w (h ++ a) b.
Proof.
  revert h. induction a as [|ev a IH]; intros h; cbn [app all_returned].
  - now rewrite app_nil_r.
  - rewrite IH, <- app_assoc, andb_assoc. reflexivity.
Qed.

Ltac all_calls_returned :=
  cbn [all_returned andb];
  repeat match goal with
         | Hr : all_returned ?w ?h ?evs = true |- context [all_returned ?w ?h (?evs ++ ?r)%list] =>
             rewrite (all_returned_app w evs r h), Hr; cbn [all_returned andb]
         | H : w_fail _ _ _ = None |- _ => rewrite H; clear H
         end;
  reflexivity.

(** C9, as amended. A run in which [setup] returns (where [main] runs
    it, after the starting line) attempts one launch first:
    [launchPersistentContext(USER_DATA_DIR, options)] when [USER_DATA_DIR]
    is set and not empty, [launch(options)] otherwise. In every run the
    calls that acquire the session are, in this order and never more, that
    launch, one [newPage] on the session it returned and one [goto] of
    [BASE_URL] on that page, or the first ones of these. Whenever the
    callback is invoked, all three have been made before it, and every
    call made before it has returned: the launch, [newPage], [goto] and
    the waits for the page. *)
Theorem session_acquisition (w : world) :
  let h := hist (snd (main w init)) in
  (exists n, acquisitions h = firstn n (expected_acquisitions w))
  /\ (fst (setup w (record [ConsoleLog (nl ++ nl ++ " **** Starting ****")] init)) = Normal tt ->
      hd_error (acquisitions h) = hd_error (expected_acquisitions w))
  /\ (callback_ran h = true ->
      acquisitions (before_callback h) = expected_acquisitions w
      /\ all_returned w [] (before_callback h) = true).
Proof.
  intros h. subst h. destruct (main w init) as [r s'] eqn:E. cbn [snd].
  remember (hist s') as h eqn:Hh. revert E Hh.
  unfold expected_acquisitions. unfold_main.
  walk.
  all: arrive_with_history; read_history.
  all: split;
    [ first [ exists 0%nat; reflexivity | exists 1%nat; reflexivity
            | exists 2%nat; reflexivity | exists 3%nat; reflexivity ]
    | split;
      [ first [ discriminate | intros _; reflexivity ]
      | first [ discriminate | intros _; split; [reflexivity | all_calls_returned] ] ] ].
Qed.

(** With a profile directory configured the callback runs after a
    persistent launch over that directory; without one, after an ephemeral
    launch; in both worlds every call before the callback returned. *)
Lemma session_acquisition_witness :
  (callback_ran (hist (snd (main Sample.settled init))) = true
   /\ acquisitions (before_callback (hist (snd (main Sample.settled init))))
      = [Called (LaunchPersistentContext (JString "/tmp/profile") (options Sample.settled));
         Called (NewPage (PersistentSession (JString "/tmp/profile") (options Sample.settled)));
         Called (Goto (PageOf (PersistentSession (JString "/tmp/profile") (options Sample.settled)))
                   (JString "https://example.org/"))]
   /\ all_returned Sample.settled [] (before_callback (hist (snd (main Sample.settled init))))
      = true)
  /\ (callback_ran (hist (snd (main Sample.calm init))) = true
      /\ acquisitions (before_callback (hist (snd (main Sample.calm init))))
         = [Called (Launch (options Sample.calm));
            Called (NewPage (EphemeralSession (options Sample.calm)));
            Called (Goto (Sample.its_page Sample.calm) (JString "https://example.org/"))]
      /\ all_returned Sample.calm [] (before_callback (hist (snd (main Sample.calm init))))
         = true).
Proof.
  split; (split; [vm_compute; reflexivity|]).
  - apply (proj2 (proj2 (session_acquisition Sample.settled))). vm_compute. reflexivity.
  - apply (proj2 (proj2 (session_acquisition Sample.calm))). vm_compute. reflexivity.
Defined.

(** C9, as stated, fails: a persistent profile is configured and
    [BASE_URL] is not; [setup] throws, and the run creates no session,
    opens no page, navigates nowhere and never invokes the callback. *)
Lemma profile_without_session :
  truthy (USER_DATA_DIR (w_env Scenario.unaddressed)) = true
  /\ acquisitions (hist (snd (main Scenario.unaddressed init))) = []
  /\ context (snd (main Scenario.unaddressed init)) = None
  /\ page (snd (main Scenario.unaddressed init)) = None
  /\ callback_ran (hist (snd (main Scenario.unaddressed init))) = false.
Proof. repeat split; vm_compute; reflexivity. Qed.

(** When the navigation throws, the three calls have been made and the
    callback is not invoked. *)
Lemma failed_navigation_skips_callback :
  truthy (env_get (w_env Scenario.unreachable) "BASE_URL") = true
  /\ acquisitions (hist (snd (main Scenario.unreachable init)))
     = expected_acquisitions Scenario.unreachable
  /\ callback_ran (hist (snd (main Scenario.unreachable init))) = false
  /\ fst (main Scenario.unreachable init) = Exited 0.
Proof. repeat split; vm_compute; reflexivity. Qed.

(** ** Teardown *)

(** When the [try] and [catch] blocks are over and a page is held, the
    session it belongs to is held too. *)
Lemma body_locals (w : world) (r : outcome unit) (s : state) :
  try_catch (main_try w) (main_catch w) init = (r, s) ->
  forall p, page s = Some p -> context s = Some (match p with PageOf c => c end).
Proof.
  unfold_main. walk.
  all: arrive; cbn [page context]; intros p0 Hp; first [discriminate | now inversion Hp].
Qed.

(** The [finally] block, when [page] and [context] are both set. *)
Lemma main_finally_runs (w : world) (h : list event) (c : session) (p : pageh) :
  let s := {| hist := h; context := Some c; page := Some p |} in
  let closing := [ConsoleLog "Closing resources..."; ReadlineClose; Called (PageClose p)] in
  main_finally w s
  = match w_fail w (h ++ [ConsoleLog "Closing resources..."; ReadlineClose]) (PageClose p) with
    | Some e => (Throw e, record closing s)
    | None =>
        match w_fail w (h ++ closing) (ContextClose c) with
        | Some e => (Throw e, record (closing ++ [Called (ContextClose c)]) s)
        | None =>
            (Exited 0,
             record (closing ++ [Called (ContextClose c);
                                 ConsoleLog "**** Done **** ";
                                 ProcessExit 0]) s)
        end
    end.
Proof.
  intros s closing. subst s closing.
  unfold main_finally. run_js. rewrite <- !app_assoc. cbn [app].
  destruct (w_fail w _ (PageClose p)); [reflexivity|].
  rewrite <- !app_assoc. cbn [app].
  destruct (w_fail w _ (ContextClose c)); rewrite <- ?app_assoc; reflexivity.
Qed.

(** C1, as amended. On every exit path of [main] that has opened a page
    (the [try]/[catch] part returned or threw), the [finally] block closes
    the prompt channel and then attempts to close the page; it attempts to
    close the session only when closing the page returned, and it reaches
    ["**** Done **** "] and [process.exit(0)] only when closing the session
    returned. What a close throws is neither caught nor logged: it is how
    [main] ends, and the steps after it are not taken. *)
Theorem teardown_sequence (w : world) (p : pageh) :
  let body := try_catch (main_try w) (main_catch w) init in
  let s0 := snd body in
  let closing := [ConsoleLog "Closing resources..."; ReadlineClose; Called (PageClose p)] in
  page s0 = Some p ->
  (fst body = Normal tt \/ exists e, fst body = Throw e) ->
  exists c,
    context s0 = Some c /\ p = PageOf c
    /\ match w_fail w (hist s0 ++ [ConsoleLog "Closing resources..."; ReadlineClose]) (PageClose p) with
       | Some e => main w init = (Throw e, record closing s0)
       | None =>
           match w_fail w (hist s0 ++ closing) (ContextClose c) with
           | Some e =>
               main w init = (Throw e, record (closing ++ [Called (ContextClose c)]) s0)
           | None =>
               main w init
               = (Exited 0,
                  record (closing ++ [Called (ContextClose c);
                                      ConsoleLog "**** Done **** ";
                                      ProcessExit 0]) s0)
           end
       end.
Proof.
  intros body s0 closing Hp Hr. subst s0 closing.
  unfold main, try_finally. fold body.
  destruct body as [r0 [h c0 p0]] eqn:E. cbn [fst snd page context hist] in *.
  pose proof (body_locals w _ _ E p Hp) as Hc. cbn [context] in Hc.
  subst p0 c0. exists (match p with PageOf c => c end).
  split; [reflexivity|]. split; [now destruct p|].
  pose proof (main_finally_runs w h (match p with PageOf c => c end) p) as Hfin.
  cbv zeta in Hfin.
  destruct Hr as [-> | [e ->]]; rewrite Hfin;
    destruct (w_fail w _ (PageClose p)); try reflexivity;
    destruct (w_fail w _ (ContextClose _)); reflexivity.
Qed.

(** The callback returns, the page exists, every close returns: [main]
    ends in [process.exit(0)]. *)
Lemma teardown_sequence_witness :
  page (snd (try_catch (main_try Sample.calm) (main_catch Sample.calm) init))
  = Some (Sample.its_page Sample.calm)
  /\ fst (try_catch (main_try Sample.calm) (main_catch Sample.calm) init) = Normal tt
  /\ fst (main Sample.calm init) = Exited 0.
Proof.
  assert (Hp : page (snd (try_catch (main_try Sample.calm) (main_catch Sample.calm) init))
               = Some (Sample.its_page Sample.calm)) by reflexivity.
  assert (Hr : fst (try_catch (main_try Sample.calm) (main_catch Sample.calm) init) = Normal tt)
    by reflexivity.
  split; [exact Hp|]. split; [exact Hr|].
  destruct (teardown_sequence Sample.calm (Sample.its_page Sample.calm) Hp (or_introl Hr))
    as (c & _ & _ & H).
  lazy beta iota delta [w_fail Sample.calm Sample.quiet Sample.no_failure] in H.
  exact (f_equal fst H).
Defined.

(** C1, as stated, fails: the callback returns, [page.close()] throws
    ["Target closed"]; [main] ends with that error, nothing is logged after
    ["Closing resources..."], and closing the session is never attempted. *)
Lemma page_close_failure_skips_session :
  fst (main Sample.stuck init) = Throw (Error "Target closed")
  /\ existsb is_page_close (hist (snd (main Sample.stuck init))) = true
  /\ existsb is_context_close (hist (snd (main Sample.stuck init))) = false
  /\ last (hist (snd (main Sample.stuck init))) ReadlineClose
     = Called (PageClose (Sample.its_page Sample.stuck)).
Proof. repeat split; vm_compute; reflexivity. Qed.

(** ** A run without [BASE_URL] *)

(** [setup] throws, the [catch] block throws in [takeScreenshot] because
    [page] is [undefined], and so does the [finally] block at
    [page.close()]: nothing is launched and [process.exit] is not reached. *)
Lemma main_without_base_url (w : world) :
  truthy (env_get (w_env w) "BASE_URL") = false ->
  fst (main w init)
  = Throw (TypeError "Cannot read properties of undefined (reading 'close')")
  /\ existsb is_exit (hist (snd (main w init))) = false
  /\ acquisitions (hist (snd (main w init))) = []
  /\ context (snd (main w init)) = None.
Proof.
  intros Hb. rewrite <- base_url_truthy in Hb.
  destruct (main w init) as [r s'] eqn:E. cbn [fst snd].
  remember (hist s') as h eqn:Hh. revert E Hh.
  unfold_main. walk.
  all: try congruence.
  all: arrive_with_history; read_history; repeat split.
Qed.

(** Such a run in the empty environment, event by event. *)
Example run_without_base_url :
  main Sample.bare init
  = (Throw (TypeError "Cannot read properties of undefined (reading 'close')"),
     {| hist :=
          [ConsoleLog (nl ++ nl ++ " **** Starting ****");
           ConsoleLog "Starting Setup...";
           Called (ExistsSync "data/logs/");
           ConsoleLog "LOGS_FOLDER_PATH is set to data/logs/ ";
           Called (LoggingSetup true "data/logs/");
           Called (ExistsSync "data/screenshots/");
           ConsoleLog "SCREENSHOT_FOLDER_PATH is set to data/screenshots/ ";
           ConsoleError "Error occurred while processing visitors:"
             (Error "BASE_URL environment variable is not set.");
           ConsoleLog "Closing resources...";
           ReadlineClose];
        context := None;
        page := None |}).
Proof. vm_compute. reflexivity. Qed.

(** ** What [setup] requires *)

(** C5, as amended. Whenever [BASE_URL] is missing or empty, [setup]
    throws, and [main] launches nothing, opens no page and navigates
    nowhere; when the file system and [logging.js] do not fail first, the
    error is ["BASE_URL environment variable is not set."]. The identity
    string and the default wait are never required of the environment:
    the values [setup] checks are the defaults when the environment gives
    none, and the check on them returns in every environment. *)
Theorem base_url_is_required (w : world) :
  (truthy (env_get (w_env w) "BASE_URL") = false ->
   (forall s, exists e, fst (setup w s) = Throw e)
   /\ (forall s,
         (forall h c, is_setup_event (Called c) = true -> w_fail w h c = None) ->
         fst (setup w s) = Throw (Error "BASE_URL environment variable is not set."))
   /\ acquisitions (hist (snd (main w init))) = [])
  /\ (forall s,
        fst (assertEnvVariableValue (USER_AGENT (w_env w)) "USER_AGENT" true s) = Normal tt
        /\ fst (assertEnvVariableValue
                  (JNumber (DEFAULT_ADDITIONAL_WAIT_TIME_SECONDS (w_env w)))
                  "DEFAULT_ADDITIONAL_WAIT_TIME_SECONDS" true s) = Normal tt).
Proof.
  split; [intros Hb; repeat split | intros s; split].
  - intros s. pose proof (setup_cases w s) as H.
    rewrite <- base_url_truthy in Hb.
    destruct (setup w s) as [[[] | e | |] s']; cbn [setup_post fst] in *.
    + destruct H as [H _]. congruence.
    + eauto.
    + contradiction.
    + contradiction.
  - intros s Hok. now apply setup_reports_base_url.
  - apply (main_without_base_url w Hb).
  - unfold assertEnvVariableValue. rewrite user_agent_truthy. reflexivity.
  - unfold assertEnvVariableValue. rewrite wait_default_truthy. reflexivity.
Qed.

(** The empty environment, in a world where nothing else fails. *)
Lemma base_url_is_required_witness :
  truthy (env_get (w_env Sample.bare) "BASE_URL") = false
  /\ fst (setup Sample.bare init)
     = Throw (Error "BASE_URL environment variable is not set.")
  /\ acquisitions (hist (snd (main Sample.bare init))) = [].
Proof.
  assert (Hb : truthy (env_get (w_env Sample.bare) "BASE_URL") = false) by reflexivity.
  destruct (proj1 (base_url_is_required Sample.bare) Hb) as (_ & Hmsg & Hacq).
  split; [exact Hb|]. split; [|exact Hacq].
  apply Hmsg. intros h c _. reflexivity.
Defined.

(** C5, as stated, fails: [BASE_URL] is set, the identity string and the
    default wait are both absent from the environment, and [setup]
    returns. *)
Lemma setup_accepts_missing_identity_and_wait :
  env_get (w_env Sample.calm) "USER_AGENT" = JUndefined
  /\ env_get (w_env Sample.calm) "DEFAULT_ADDITIONAL_WAIT_TIME_SECONDS" = JUndefined
  /\ fst (setup Sample.calm init) = Normal tt
  /\ USER_AGENT (w_env Sample.calm) = JString default_user_agent
  /\ DEFAULT_ADDITIONAL_WAIT_TIME_SECONDS (w_env Sample.calm) = Int 3.
Proof. repeat split; vm_compute; reflexivity. Qed.

(** ** Counting what [main] did *)

Lemma setup_event_silent (ev : event) :
  is_setup_event ev = true ->
  is_screenshot ev = false /\ is_console_error ev = false.
Proof. destruct ev as [| | | | |[]| | | |]; simpl; intros; split; congruence. Qed.

Lemma readline_close_setup (evs rest : list event) :
  forallb is_setup_event evs = true ->
  existsb is_readline_close (evs ++ rest) = existsb is_readline_close rest.
Proof.
  apply existsb_setup. intros [| | | | |[]| | | |]; simpl; congruence.
Qed.

Lemma screenshot_setup (evs rest : list event) :
  forallb is_setup_event evs = true ->
  filter is_screenshot (evs ++ rest) = filter is_screenshot rest.
Proof. apply filter_setup. intros ev H. apply setup_event_silent, H. Qed.

Lemma console_error_setup (evs rest : list event) :
  forallb is_setup_event evs = true ->
  filter is_console_error (evs ++ rest) = filter is_console_error rest.
Proof. apply filter_setup. intros ev H. apply setup_event_silent, H. Qed.

Lemma processing_setup (evs rest : list event) :
  forallb is_setup_event evs = true ->
  filter is_processing (evs ++ rest) = filter is_processing rest.
Proof. apply filter_setup. intros ev H. apply setup_event_quiet, H. Qed.

Lemma page_close_setup (evs rest : list event) :
  forallb is_setup_event evs = true ->
  existsb is_page_close (evs ++ rest) = existsb is_page_close rest.
Proof. apply existsb_setup. intros ev H. apply setup_event_quiet, H. Qed.

Lemma existsb_screenshot_setup (evs rest : list event) :
  forallb is_setup_event evs = true ->
  existsb is_screenshot (evs ++ rest) = existsb is_screenshot rest.
Proof. apply existsb_setup. intros ev H. apply setup_event_silent, H. Qed.

Lemma existsb_console_error_setup (evs rest : list event) :
  forallb is_setup_event evs = true ->
  existsb is_console_error (evs ++ rest) = existsb is_console_error rest.
Proof. apply existsb_setup. intros ev H. apply setup_event_silent, H. Qed.

Lemma filter_callback (f : event -> bool) (l : list string) (rest : list event) :
  (forall x, f (Callback x) = false) ->
  filter f (map Callback l ++ rest) = filter f rest.
Proof. intros Hf. induction l; simpl; [reflexivity|]. now rewrite Hf. Qed.

Lemma existsb_callback (f : event -> bool) (l : list string) (rest : list event) :
  (forall x, f (Callback x) = false) ->
  existsb f (map Callback l ++ rest) = existsb f rest.
Proof. intros Hf. induction l; simpl; [reflexivity|]. now rewrite Hf. Qed.

Ltac compute_events :=
  cbn [existsb filter List.length orb andb is_processing is_exit is_context_close
       is_page_close is_screenshot is_console_error is_acquisition
       is_readline_close callback_ran acquisitions has_page page].

Ltac skip_unknown :=
  match goal with
  | Hq : forallb is_setup_event ?evs = true |- context [filter ?f (?evs ++ ?r)%list] =>
      lazymatch f with
      | is_screenshot => rewrite (screenshot_setup evs r Hq)
      | is_console_error => rewrite (console_error_setup evs r Hq)
      | is_processing => rewrite (processing_setup evs r Hq)
      | is_acquisition => rewrite (acquisitions_setup evs r Hq)
      end
  | Hq : forallb is_setup_event ?evs = true |- context [existsb ?f (?evs ++ ?r)%list] =>
      lazymatch f with
      | is_screenshot => rewrite (existsb_screenshot_setup evs r Hq)
      | is_console_error => rewrite (existsb_console_error_setup evs r Hq)
      | is_processing => rewrite (callback_ran_setup evs r Hq)
      | is_exit => rewrite (exit_setup evs r Hq)
      | is_page_close => rewrite (page_close_setup evs r Hq)
      | is_context_close => rewrite (context_close_setup evs r Hq)
      | is_readline_close => rewrite (readline_close_setup evs r Hq)
      end
  | |- context [filter ?f (map Callback ?l ++ ?r)%list] =>
      rewrite (filter_callback f l r (fun _ => eq_refl))
  | |- context [existsb ?f (map Callback ?l ++ ?r)%list] =>
      rewrite (existsb_callback f l r (fun _ => eq_refl))
  end.

Ltac read_events := repeat (compute_events; skip_unknown); compute_events.

(** X2. [main] never returns to its caller: in every world its promise
    stays pending (the callback never settled), or is rejected, or the
    process has exited. *)
Theorem main_never_returns (w : world) :
  fst (main w init) = Pending
  \/ (exists e, fst (main w init) = Throw e)
  \/ (exists c, fst (main w init) = Exited c).
Proof.
  destruct (main w init) as [r s'] eqn:E. cbn [fst]. revert E.
  unfold_main. walk.
  all: arrive.
  all: first [ left; reflexivity
             | right; left; eexists; reflexivity
             | right; right; eexists; reflexivity ].
Qed.

(** X3. Whenever [main] ends without having opened a page ([setup], the
    launch or [newPage] failed), it ends with the [TypeError] of
    [page.close()] on [undefined]: no screenshot was attempted, no page and
    no session was closed, also not a browser the launch had returned, and
    [process.exit] was not called. *)
Theorem no_page_no_teardown (w : world) :
  page (snd (main w init)) = None ->
  let h := hist (snd (main w init)) in
  fst (main w init)
  = Throw (TypeError "Cannot read properties of undefined (reading 'close')")
  /\ existsb is_screenshot h = false
  /\ existsb is_page_close h = false
  /\ existsb is_context_close h = false
  /\ existsb is_exit h = false.
Proof.
  intros Hp h. subst h. revert Hp.
  destruct (main w init) as [r s'] eqn:E. cbn [fst snd].
  remember (hist s') as h eqn:Hh. revert E Hh.
  unfold_main. walk.
  all: let E := fresh "E" in
       let Hh := fresh "Hh" in
       intros E Hh; apply pair_equal_spec in E; destruct E as [<- <-];
       cbn [page]; intros Hp; try discriminate Hp.
  all: cbv beta iota delta [hist] in Hh; flatten_in Hh; rewrite Hh; clear Hh.
  all: read_events; repeat split.
Qed.

(** [newPage] throws after the launch returned: the session is held and
    never closed. *)
Lemma no_page_no_teardown_witness :
  page (snd (main Scenario.orphan init)) = None
  /\ context (snd (main Scenario.orphan init))
     = Some (EphemeralSession (options Scenario.orphan))
  /\ existsb is_context_close (hist (snd (main Scenario.orphan init))) = false
  /\ existsb is_exit (hist (snd (main Scenario.orphan init))) = false.
Proof.
  assert (Hp : page (snd (main Scenario.orphan init)) = None) by reflexivity.
  destruct (no_page_no_teardown Scenario.orphan Hp) as (_ & _ & _ & Hc & Hx).
  split; [exact Hp|]. split; [reflexivity|]. split; [exact Hc | exact Hx].
Defined.

(** X4. In every run [main] invokes the callback at most once, logs at
    most one error and attempts at most one screenshot; it attempts the
    screenshot exactly when it logged an error and a page had been opened. *)
Theorem capture_once (w : world) :
  let s := snd (main w init) in
  let h := hist s in
  (List.length (filter is_processing h) <= 1)%nat
  /\ (List.length (filter is_console_error h) <= 1)%nat
  /\ (List.length (filter is_screenshot h) <= 1)%nat
  /\ existsb is_screenshot h = existsb is_console_error h && has_page s.
Proof.
  intros s h. subst h s.
  destruct (main w init) as [r s'] eqn:E. cbn [snd].
  assert (Hpage : has_page s' = has_page s') by reflexivity.
  revert Hpage. generalize (has_page s') at 1 3 as b.
  remember (hist s') as h eqn:Hh. intros b Hb. revert E Hh b Hb.
  unfold_main. walk.
  all: let E := fresh "E" in
       let Hh := fresh "Hh" in
       intros E Hh; apply pair_equal_spec in E; destruct E as [<- <-];
       intros b ->;
       cbv beta iota delta [hist] in Hh; flatten_in Hh; rewrite Hh; clear Hh.
  all: read_events.
  all: repeat split; lia.
Qed.

(** [setup] returns when [BASE_URL] is set and no call fails. *)
Lemma setup_returns (w : world) (s : state) :
  truthy (env_get (w_env w) "BASE_URL") = true ->
  (forall h c, w_fail w h c = None) ->
  fst (setup w s) = Normal tt.
Proof.
  intros Hb Hok. rewrite <- base_url_truthy in Hb.
  destruct (setup w s) as [r s'] eqn:E. cbn [fst]. revert E.
  destruct s as [h c p].
  unfold setup, assertFolderPathValue, assertEnvVariableValue.
  unfold LOGS_FOLDER_PATH, SCREENSHOT_FOLDER_PATH.
  rewrite !folder_truthy, Hb, user_agent_truthy, wait_default_truthy.
  run_js.
  repeat (rewrite ?Hok; first [let x := head_term in split_on x]; run_js).
  all: rewrite ?Hok; run_js.
  all: intros E; apply pair_equal_spec in E; destruct E as [<- _]; reflexivity.
Qed.

(** X1. When [BASE_URL] is set, no call of the file system, of
    [logging.js] or of the engine fails and the callback returns or
    throws, [main] ends in [process.exit(0)]: it has acquired the session,
    invoked the callback once and closed the page and the session. When
    the callback returns, no error is logged and no screenshot is taken;
    when it throws, the error is logged once and one screenshot is taken,
    and the exit code is 0 all the same. *)
Theorem run_ends_in_exit_zero (w : world) :
  truthy (env_get (w_env w) "BASE_URL") = true ->
  (forall h c, w_fail w h c = None) ->
  (forall p h, settles (fst (w_processing w p h))) ->
  let h := hist (snd (main w init)) in
  fst (main w init) = Exited 0
  /\ List.length (filter is_processing h) = 1%nat
  /\ acquisitions h = expected_acquisitions w
  /\ existsb is_page_close h = true
  /\ existsb is_context_close h = true
  /\ ((forall p h', fst (w_processing w p h') = Normal tt) ->
      existsb is_console_error h = false /\ existsb is_screenshot h = false)
  /\ ((forall p h', exists e, fst (w_processing w p h') = Throw e) ->
      List.length (filter is_console_error h) = 1%nat
      /\ List.length (filter is_screenshot h) = 1%nat).
Proof.
  intros Hb Hok Hcb h. subst h.
  destruct (main w init) as [r s'] eqn:E. cbn [fst snd].
  remember (hist s') as h eqn:Hh. revert E Hh.
  unfold expected_acquisitions. unfold_main.
  repeat (run_js;
          first
            [ progress (rewrite ?Hok)
            | let x := head_term in
              lazymatch x with
              | setup ?w ?s =>
                  let H := fresh "Hsetup" in
                  let H' := fresh "Hret" in
                  let evs := fresh "evs" in
                  let Hq := fresh "Hquiet" in
                  pose proof (setup_cases w s) as H;
                  pose proof (setup_returns w s Hb Hok) as H';
                  destruct x as [[[] | ? | ? | ] ?]; cbn [fst] in H';
                  try discriminate H';
                  cbv beta iota delta [setup_post] in H;
                  destruct H as (_ & evs & Hq & _ & ->)
              | w_processing ?w ?p ?h =>
                  let H := fresh "Hcall" in
                  pose proof (Hcb p h) as H;
                  destruct x as [[[] | ? | ? | ] ?] eqn:?; cbn [fst] in H;
                  destruct H as [H | [? H]]; try discriminate H
              end
            | let x := head_term in split_on x ]);
  run_js.
  all: arrive_with_history; read_events.
  all: repeat match goal with
              | |- _ /\ _ => split
              | |- (forall p h', _) -> _ => intros Hall
              end;
       try reflexivity.
  all: match goal with
       | Heq : w_processing ?w ?p ?h = _ |- _ =>
           specialize (Hall p h); rewrite Heq in Hall; cbn [fst] in Hall
       end;
       first [ discriminate Hall | destruct Hall as [? Hall]; discriminate Hall ].
Qed.

(** The callback returns in one world and throws in the other. *)
Lemma run_ends_in_exit_zero_witness :
  (fst (main Sample.calm init) = Exited 0
   /\ existsb is_console_error (hist (snd (main Sample.calm init))) = false)
  /\ (fst (main Scenario.failing init) = Exited 0
      /\ List.length (filter is_screenshot (hist (snd (main Scenario.failing init)))) = 1%nat).
Proof.
  split.
  - destruct (run_ends_in_exit_zero Sample.calm) as (H1 & _ & _ & _ & _ & H2 & _).
    + reflexivity.
    + intros h c. reflexivity.
    + intros p h. left. reflexivity.
    + split; [exact H1|]. apply H2. intros p h'. reflexivity.
  - destruct (run_ends_in_exit_zero Scenario.failing) as (H1 & _ & _ & _ & _ & _ & H2).
    + reflexivity.
    + intros h c. reflexivity.
    + intros p h. right. eexists. reflexivity.
    + split; [exact H1|]. apply H2. intros p h'. eexists. reflexivity.
Defined.

(** ** How the process ends *)

Ltac walk_settling Hcb :=
  repeat (run_js;
          first
            [ use_setup
            | let x := head_term in
              lazymatch x with
              | w_processing ?w ?p ?h =>
                  let H := fresh "Hcall" in
                  pose proof (Hcb p h) as H;
                  destruct x as [[[] | ? | ? | ] ?] eqn:?; cbn [fst] in H;
                  destruct H as [H | [? H]]; try discriminate H
              end
            | let x := head_term in split_on x ]);
  run_js.

(** C8, as amended. In every run in which the callback returns or
    throws, [main] never ends the process with a status other than 0: the
    process ends with status 0 or it does not end. When moreover
    [newPage], [page.close()] and [context.close()] do not throw (whether
    the callback returns, the callback throws, or [setup], the launch, the
    navigation, a wait or the screenshot fails), the process ends with
    status 0 and the prompt channel has been closed before: either a
    session was held, and [main] closed the page and the session and
    called [process.exit(0)]; or nothing was launched, [main] is rejected
    without calling [process.exit], and the process ends by itself. *)
Theorem exit_status_zero (w : world) :
  (forall p h, settles (fst (w_processing w p h))) ->
  let r := main w init in
  let h := hist (snd r) in
  (forall code, exit_status r = Some code -> code = 0)
  /\ ((forall h' c, w_fail w h' (NewPage c) = None) ->
      (forall h' p, w_fail w h' (PageClose p) = None) ->
      (forall h' c, w_fail w h' (ContextClose c) = None) ->
      exit_status r = Some 0
      /\ existsb is_readline_close h = true
      /\ match context (snd r) with
         | None => (exists e, fst r = Throw e) /\ existsb is_exit h = false
         | Some _ =>
             fst r = Exited 0
             /\ existsb is_page_close h = true
             /\ existsb is_context_close h = true
         end).
Proof.
  intros Hcb r h. subst h r.
  destruct (main w init) as [r s'] eqn:E. cbn [fst snd].
  remember (hist s') as h eqn:Hh. revert E Hh.
  unfold_main. walk_settling Hcb.
  all: arrive_with_history; cbn [exit_status context]; read_events.
  all: split;
    [ intros code Hc; first [discriminate Hc | now injection Hc as <-]
    | intros Hn Hp Hc;
      try match goal with
          | H : w_fail _ _ (NewPage _) = Some _ |- _ => rewrite Hn in H; discriminate H
          | H : w_fail _ _ (PageClose _) = Some _ |- _ => rewrite Hp in H; discriminate H
          | H : w_fail _ _ (ContextClose _) = Some _ |- _ => rewrite Hc in H; discriminate H
          end ].
  all: split; [reflexivity|]; split; [reflexivity|].
  all: first [ split; [eexists; reflexivity | reflexivity]
             | split; [reflexivity|]; split; reflexivity ].
Qed.

(** The callback returns; the callback throws; [BASE_URL] is missing; the
    navigation fails. *)
Lemma exit_status_zero_witness :
  exit_status (main Sample.calm init) = Some 0
  /\ exit_status (main Scenario.failing init) = Some 0
  /\ exit_status (main Sample.bare init) = Some 0
  /\ exit_status (main Scenario.unreachable init) = Some 0.
Proof.
  repeat match goal with |- _ /\ _ => split end.
  - apply (exit_status_zero Sample.calm); try (intros; reflexivity).
    intros p h. left. reflexivity.
  - apply (exit_status_zero Scenario.failing); try (intros; reflexivity).
    intros p h. right. eexists. reflexivity.
  - apply (exit_status_zero Sample.bare); try (intros; reflexivity).
    intros p h. left. reflexivity.
  - apply (exit_status_zero Scenario.unreachable); try (intros; reflexivity).
    intros p h. left. reflexivity.
Defined.

(** C8, as stated, fails: the callback returns and [page.close()]
    throws ["Target closed"]. [main] is rejected with that error,
    [process.exit] is not called and the session is not closed: the
    browser is left open and the process does not end. *)
Lemma page_close_failure_keeps_browser :
  fst (main Sample.stuck init) = Throw (Error "Target closed")
  /\ exit_status (main Sample.stuck init) = None
  /\ context (snd (main Sample.stuck init)) = Some (EphemeralSession (options Sample.stuck))
  /\ existsb is_context_close (hist (snd (main Sample.stuck init))) = false
  /\ existsb is_exit (hist (snd (main Sample.stuck init))) = false.
Proof. repeat split; vm_compute; reflexivity. Qed.

(** ** More about [setup] *)

(** X5. Whatever [setup] throws is either the error that names
    [BASE_URL], thrown exactly when [BASE_URL] is missing or empty, or an
    error thrown by [fs.mkdirSync] or by [loggingSetup]: the folder checks
    never report a folder as not set, and the checks of [USER_AGENT],
    [DEFAULT_ADDITIONAL_WAIT_TIME_SECONDS] and [USER_DATA_DIR] never
    throw. *)
Theorem setup_errors (w : world) (s s' : state) (e : exn) :
  setup w s = (Throw e, s') ->
  (e = Error "BASE_URL environment variable is not set."
   /\ truthy (env_get (w_env w) "BASE_URL") = false)
  \/ (exists h path, w_fail w h (MkdirSync path) = Some e)
  \/ (exists h demo folder, w_fail w h (LoggingSetup demo folder) = Some e).
Proof.
  rewrite <- base_url_truthy.
  destruct s as [h c p].
  unfold setup, assertFolderPathValue, assertEnvVariableValue.
  unfold LOGS_FOLDER_PATH, SCREENSHOT_FOLDER_PATH.
  rewrite !folder_truthy, user_agent_truthy, wait_default_truthy.
  run_js.
  repeat (let x := head_term in split_on x; run_js).
  all: intros E; apply pair_equal_spec in E; destruct E as [E _];
       first [ discriminate E | injection E as <- ].
  all: first [ left; split; [reflexivity | first [assumption | reflexivity]]
             | solve [right; left; eauto]
             | solve [right; right; eauto] ].
Qed.

(** The empty environment. *)
Lemma setup_errors_witness :
  setup Sample.bare init
  = (Throw (Error "BASE_URL environment variable is not set."),
     record [ConsoleLog "Starting Setup...";
             Called (ExistsSync "data/logs/");
             ConsoleLog "LOGS_FOLDER_PATH is set to data/logs/ ";
             Called (LoggingSetup true "data/logs/");
             Called (ExistsSync "data/screenshots/");
             ConsoleLog "SCREENSHOT_FOLDER_PATH is set to data/screenshots/ "] init)
  /\ ((Error "BASE_URL environment variable is not set."
       = Error "BASE_URL environment variable is not set."
       /\ truthy (env_get (w_env Sample.bare) "BASE_URL") = false)
      \/ (exists h path,
            w_fail Sample.bare h (MkdirSync path)
            = Some (Error "BASE_URL environment variable is not set."))
      \/ (exists h demo folder,
            w_fail Sample.bare h (LoggingSetup demo folder)
            = Some (Error "BASE_URL environment variable is not set."))).
Proof.
  assert (H : setup Sample.bare init
              = (Throw (Error "BASE_URL environment variable is not set."),
                 record [ConsoleLog "Starting Setup...";
                         Called (ExistsSync "data/logs/");
                         ConsoleLog "LOGS_FOLDER_PATH is set to data/logs/ ";
                         Called (LoggingSetup true "data/logs/");
                         Called (ExistsSync "data/screenshots/");
                         ConsoleLog "SCREENSHOT_FOLDER_PATH is set to data/screenshots/ "]
                   init)) by reflexivity.
  split; [exact H|]. exact (setup_errors Sample.bare _ _ _ H).
Defined.

(** X6. When [setup] returns it has printed, in this order, one line for
    each parameter with its resolved value: the two folders, [BASE_URL]
    with the slash appended, [USER_AGENT], the default wait as the number
    it resolved to, and for [USER_DATA_DIR] its value or that it is not
    set, between ["Starting Setup..."] and ["Setup completed
    successfully."]. *)
Theorem setup_console_lines (w : world) (s s' : state) :
  setup w s = (Normal tt, s') ->
  let e := w_env w in
  exists evs,
    s' = record evs s
    /\ console_lines evs
       = [ConsoleLog "Starting Setup...";
          ConsoleLog ("LOGS_FOLDER_PATH is set to " ++ LOGS_FOLDER_PATH e ++ " ");
          ConsoleLog ("SCREENSHOT_FOLDER_PATH is set to " ++ SCREENSHOT_FOLDER_PATH e ++ " ");
          ConsoleLogValue "BASE_URL is set to: "
            (JString (toString (env_get e "BASE_URL") ++ "/"));
          ConsoleLogValue "USER_AGENT is set to: " (USER_AGENT e);
          ConsoleLogValue "DEFAULT_ADDITIONAL_WAIT_TIME_SECONDS is set to: "
            (JNumber (DEFAULT_ADDITIONAL_WAIT_TIME_SECONDS e));
          if truthy (USER_DATA_DIR e)
          then ConsoleLogValue "USER_DATA_DIR is set to: " (USER_DATA_DIR e)
          else ConsoleLog "USER_DATA_DIR is not set";
          ConsoleLog "Setup completed successfully."].
Proof.
  intros E e. subst e. revert E.
  destruct s as [h c p].
  unfold setup, assertFolderPathValue, assertEnvVariableValue.
  rewrite user_agent_truthy, wait_default_truthy.
  unfold BASE_URL.
  assert (Hl : truthy (JString (LOGS_FOLDER_PATH (w_env w))) = true) by apply folder_truthy.
  assert (Hs : truthy (JString (SCREENSHOT_FOLDER_PATH (w_env w))) = true) by apply folder_truthy.
  rewrite Hl, Hs.
  destruct (truthy (env_get (w_env w) "BASE_URL")) eqn:Hb.
  2:{ cbn [truthy]. run_js. repeat (let x := head_term in split_on x; run_js).
      all: intros E; apply pair_equal_spec in E; destruct E as [E _]; discriminate E. }
  rewrite folder_truthy.
  run_js.
  repeat (let x := head_term in split_on x; run_js).
  all: intros E; apply pair_equal_spec in E; destruct E as [E <-];
       try discriminate E.
  all: rewrite <- ?app_assoc; eexists; split; [reflexivity|]; reflexivity.
Qed.

(** A persistent profile configured, everything else by default. *)
Lemma setup_console_lines_witness :
  fst (setup Sample.settled init) = Normal tt
  /\ console_lines (hist (snd (setup Sample.settled init)))
     = [ConsoleLog "Starting Setup...";
        ConsoleLog "LOGS_FOLDER_PATH is set to data/logs/ ";
        ConsoleLog "SCREENSHOT_FOLDER_PATH is set to data/screenshots/ ";
        ConsoleLogValue "BASE_URL is set to: " (JString "https://example.org/");
        ConsoleLogValue "USER_AGENT is set to: " (JString default_user_agent);
        ConsoleLogValue "DEFAULT_ADDITIONAL_WAIT_TIME_SECONDS is set to: " (JNumber (Int 3));
        ConsoleLogValue "USER_DATA_DIR is set to: " (JString "/tmp/profile");
        ConsoleLog "Setup completed successfully."].
Proof.
  assert (H : setup Sample.settled init = (Normal tt, snd (setup Sample.settled init)))
    by reflexivity.
  destruct (setup_console_lines Sample.settled init _ H) as (evs & Hs & Hl).
  split; [reflexivity|].
  rewrite Hs. cbn [hist record init app]. exact Hl.
Defined.

(** ** Validating a folder twice *)

(** X7. On a disk where a folder exists once [mkdirSync] has returned
    for it and where an existing folder stays, validating a folder a second
    time, after a first validation that returned, returns too and creates
    nothing: it only asks whether the folder exists and prints its line. *)
Theorem folder_validation_idempotent
  (w : world) (path name : string) (s s1 : state) :
  (forall h, w_fail w h (MkdirSync path) = None ->
             w_exists w (h ++ [Called (MkdirSync path)]) path = true) ->
  (forall h ev, w_exists w h path = true -> w_exists w (h ++ [ev]) path = true) ->
  assertFolderPathValue w path name s = (Normal tt, s1) ->
  assertFolderPathValue w path name s1
  = (Normal tt,
     record [Called (ExistsSync path);
             ConsoleLog (name ++ " is set to " ++ path ++ " ")] s1).
Proof.
  intros Hmade Hstays. destruct s as [h c p].
  unfold assertFolderPathValue at 1.
  destruct (truthy (JString path)) eqn:Hpath; run_js; [|discriminate].
  destruct (w_exists w h path) eqn:Hex; run_js.
  - intros E. apply pair_equal_spec in E. destruct E as [_ <-].
    unfold assertFolderPathValue. rewrite Hpath. run_js.
    rewrite (Hstays _ _ (Hstays _ _ Hex)). run_js. rewrite <- !app_assoc. reflexivity.
  - destruct (w_fail w _ (MkdirSync path)) eqn:Hmk; run_js; [discriminate|].
    intros E. apply pair_equal_spec in E. destruct E as [_ <-].
    unfold assertFolderPathValue. rewrite Hpath. run_js.
    rewrite (Hstays _ _ (Hmade _ Hmk)). run_js. rewrite <- !app_assoc. reflexivity.
Qed.

Lemma fresh_disk_made (path : string) (h : list event) :
  w_exists Scenario.fresh_disk (h ++ [Called (MkdirSync path)]) path = true.
Proof.
  cbn [w_exists Scenario.fresh_disk]. rewrite existsb_app. cbn.
  rewrite String.eqb_refl. now rewrite orb_true_r.
Qed.

Lemma fresh_disk_stays (path : string) (h : list event) (ev : event) :
  w_exists Scenario.fresh_disk h path = true ->
  w_exists Scenario.fresh_disk (h ++ [ev]) path = true.
Proof.
  cbn [w_exists Scenario.fresh_disk]. rewrite existsb_app. intros ->. reflexivity.
Qed.

Lemma folder_validation_idempotent_witness :
  assertFolderPathValue Scenario.fresh_disk "data/logs/" "LOGS_FOLDER_PATH" init
  = (Normal tt,
     record [Called (ExistsSync "data/logs/");
             Called (MkdirSync "data/logs/");
             ConsoleLog "LOGS_FOLDER_PATH is set to data/logs/ "] init)
  /\ assertFolderPathValue Scenario.fresh_disk "data/logs/" "LOGS_FOLDER_PATH"
       (record [Called (ExistsSync "data/logs/");
                Called (MkdirSync "data/logs/");
                ConsoleLog "LOGS_FOLDER_PATH is set to data/logs/ "] init)
     = (Normal tt,
        record [Called (ExistsSync "data/logs/");
                ConsoleLog "LOGS_FOLDER_PATH is set to data/logs/ "]
          (record [Called (ExistsSync "data/logs/");
                   Called (MkdirSync "data/logs/");
                   ConsoleLog "LOGS_FOLDER_PATH is set to data/logs/ "] init)).
Proof.
  split; [reflexivity|].
  apply (folder_validation_idempotent Scenario.fresh_disk
           "data/logs/" "LOGS_FOLDER_PATH" init).
  - intros h _. apply fresh_disk_made.
  - intros h ev. apply fresh_disk_stays.
  - reflexivity.
Defined.

(** ** When the page does not load *)

(** X8. Whatever the engine does, [waitEntirePageToLoad] on a page
    leaves a prefix of its six events. It leaves all six exactly when it
    returns, every wait having returned. Otherwise it throws what the
    first failing wait threw, the waits before it having returned: the
    later signals are not awaited and the elapsed time is not printed. *)
Theorem readiness_prefix
  (w : world) (p : pageh) (additional : option number) (s : state) :
  let seconds :=
    match additional with
    | Some n => n
    | None => DEFAULT_ADDITIONAL_WAIT_TIME_SECONDS (w_env w)
    end in
  let evs := readiness_events p seconds in
  let r := waitEntirePageToLoad w (Some p) additional s in
  exists n,
    snd r = record (firstn n evs) s
    /\ ((fst r = Normal tt /\ n = 6%nat /\ all_returned w (hist s) evs = true)
        \/ (exists e c,
              fst r = Throw e
              /\ (2 <= n <= 5)%nat
              /\ nth_error evs (n - 1) = Some (Called c)
              /\ all_returned w (hist s) (firstn (n - 1) evs) = true
              /\ w_fail w (hist s ++ firstn (n - 1) evs) c = Some e)).
Proof.
  intros seconds evs r. subst r evs seconds.
  destruct (waitEntirePageToLoad w (Some p) additional s) as [r s'] eqn:E.
  cbn [fst snd]. revert E. destruct s as [h c pg].
  unfold waitEntirePageToLoad, readiness_events. run_js.
  repeat (let x := head_term in split_on x; run_js).
  all: intros E; apply pair_equal_spec in E; destruct E as [<- <-].
  all: [> exists 2%nat | exists 3%nat | exists 4%nat | exists 5%nat | exists 6%nat ].
  all: (split; [rewrite <- ?app_assoc; reflexivity|]).
  1-4: right; do 2 eexists; split; [reflexivity|]; split; [lia|];
       split; [reflexivity|]; cbn [Nat.sub firstn]; split;
       [| rewrite <- ?app_assoc in *; cbn [app] in *; eassumption].
  5: left; split; [reflexivity|]; split; [reflexivity|].
  all: cbn [all_returned andb];
       repeat match goal with H : w_fail _ _ _ = None |- _ => rewrite H; clear H end;
       reflexivity.
Qed.

(** ** Demo mode *)

Lemma env_get_shape (e : env) (name : string) :
  env_get e name = JUndefined \/ exists v, env_get e name = JString v.
Proof.
  induction e as [|[k v] e IH]; simpl; [now left|].
  destruct (String.eqb k name); [right; eauto | exact IH].
Qed.

(** X9. Demo mode is off exactly when the environment gives [DEMO_MODE]
    the value ["false"]; a missing variable and every other value,
    [""], ["FALSE"] or ["0"] included, leave it on. *)
Theorem demo_mode_off_only_by_false (e : env) :
  DEMO_MODE e = false <-> env_get e "DEMO_MODE" = JString "false".
Proof.
  unfold DEMO_MODE.
  destruct (env_get_shape e "DEMO_MODE") as [-> | [v ->]]; simpl.
  - split; discriminate.
  - rewrite negb_false_iff, String.eqb_eq. split; congruence.
Qed.

(** ** The prompt channel *)

Import Prompt.

Lemma resolve_not_rejected (p : promise) (a : string) :
  (forall e, p <> Rejected e) -> forall e, resolve p a <> Rejected e.
Proof. destruct p as [|b|x]; simpl; intros H y; [discriminate | discriminate | apply H]. Qed.

Lemma step_not_rejected (s : Prompt.state) (i : input) :
  (forall e, result s <> Rejected e) -> forall e, result (step s i) <> Rejected e.
Proof.
  intros H. destruct i as [a|]; simpl.
  - unfold on_line. destruct (closed s || negb (asking s)); [exact H|].
    simpl. now apply resolve_not_rejected.
  - unfold on_timer, abort, uncaughtException.
    destruct (negb (truthy (userAnswer s))); [|exact H].
    destruct (aborted s); [exact H|].
    destruct (listening s); exact H.
Qed.

(** Whatever the operator types and whenever the timer fires, the promise
    of [askUser] is never rejected: its executor only ever got [resolve]. *)
Lemma never_rejected (e : env) (question : string) (timeout : option number)
  (ins : list input) :
  forall err, result (run (askUser e question timeout) ins) <> Rejected err.
Proof.
  unfold run.
  assert (H0 : forall err, result (askUser e question timeout) <> Rejected err)
    by (intros err; discriminate).
  revert H0. generalize (askUser e question timeout) as s.
  induction ins as [|i ins IH]; intros s H0; simpl; [exact H0|].
  apply IH. now apply step_not_rejected.
Qed.

(** C3, at its failing input. With no answer from the operator, the
    firing of the timer leaves the promise of [askUser] unsettled, and
    nothing that happens later rejects it: the caller is never given the
    time-out error. The error ["The question timed out..."] is thrown in
    the [abort] listener and arrives at the handler of uncaught
    exceptions, which closes the interface the next question would need. *)
Theorem timeout_reaches_no_caller (e : env) (question : string) (timeout : option number) :
  let s0 := askUser e question timeout in
  let s := run s0 (timeline s0 None) in
  result s = Unsettled
  /\ uncaught s = [Error "The question timed out..."]
  /\ closed s = true
  /\ forall later err, result (run s later) <> Rejected err.
Proof.
  intros s0 s. repeat split.
  intros later err. subst s s0. unfold run. rewrite <- fold_left_app.
  apply never_rejected.
Qed.

(** [askUser("Continue?", 1)], no answer. *)
Example continue_times_out :
  run (askUser [] "Continue?" (Some (Int 1)))
    (timeline (askUser [] "Continue?" (Some (Int 1))) None)
  = {| userAnswer := JUndefined;
       aborted := true;
       listening := false;
       asking := false;
       result := Unsettled;
       closed := true;
       uncaught := [Error "The question timed out..."];
       delay := 1000 |}.
Proof. reflexivity. Qed.

(** A timeout of 1.5 seconds is a timer of 1500 milliseconds; the delay is
    cut to whole milliseconds, and one below a millisecond is 1. *)
Example fractional_timeouts :
  delay (askUser [] "Continue?" (Some (Fin 3 (-1)))) = 1500
  /\ delay (askUser [] "Continue?" (Some (Fin 3073 (-11)))) = 1500
  /\ delay (askUser [] "Continue?" (Some (Fin 1 (-12)))) = 1
  /\ delay (askUser [] "Continue?" None) = 30000.
Proof. repeat split; vm_compute; reflexivity. Qed.

(** C4, at its failing input. When the operator answers with the empty
    line before the timer fires, the call resolves with [""], and the
    later firing of the timer is not without effect: [userAnswer] being
    [""], the guard [!userAnswer] passes, the signal is aborted, the
    listener throws ["The question timed out..."] and the handler of
    uncaught exceptions closes the interface. *)
Theorem empty_answer_then_timer
  (e : env) (question : string) (timeout : option number) (at_ms : Z) :
  let s0 := askUser e question timeout in
  at_ms < delay s0 ->
  let s1 := run s0 [Line ""] in
  let s2 := run s0 (timeline s0 (Some (at_ms, ""))) in
  result s1 = Resolved "" /\ closed s1 = false /\ uncaught s1 = []
  /\ s2 = on_timer s1
  /\ result s2 = Resolved ""
  /\ closed s2 = true
  /\ uncaught s2 = [Error "The question timed out..."].
Proof.
  intros s0 Hlt s1 s2. subst s1 s2. unfold timeline.
  apply Z.ltb_lt in Hlt. rewrite Hlt. repeat split.
Qed.

(** The empty line at 0.9 seconds, the timer set to 1 second. *)
Lemma empty_answer_then_timer_witness :
  900 < delay (askUser [] "Continue?" (Some (Int 1)))
  /\ closed (run (askUser [] "Continue?" (Some (Int 1))) [Line ""]) = false
  /\ closed (run (askUser [] "Continue?" (Some (Int 1)))
               (timeline (askUser [] "Continue?" (Some (Int 1))) (Some (900, ""))))
     = true.
Proof.
  assert (Hlt : 900 < delay (askUser [] "Continue?" (Some (Int 1)))) by reflexivity.
  destruct (empty_answer_then_timer [] "Continue?" (Some (Int 1)) 900 Hlt)
    as (_ & H1 & _ & _ & _ & H2 & _).
  split; [exact Hlt|]. split; [exact H1 | exact H2].
Defined.

(** An answer that is not empty makes the later firing of the timer do
    nothing. *)
Lemma answered_timer_is_noop
  (e : env) (question : string) (timeout : option number) (c : ascii) (a : string) :
  let s1 := run (askUser e question timeout) [Line (String c a)] in
  result s1 = Resolved (String c a) /\ on_timer s1 = s1.
Proof. split; reflexivity. Qed.

(** An answer that comes after the timer has fired resolves nothing. *)
Lemma late_answer_is_dropped
  (e : env) (question : string) (timeout : option number) (a : string) :
  let s1 := run (askUser e question timeout) [TimerFires] in
  on_line a s1 = s1.
Proof. reflexivity. Qed.

(** ** More about the prompt *)

Lemma run_fixed (s : Prompt.state) (ins : list input) :
  (forall i, step s i = s) -> run s ins = s.
Proof.
  intros H. unfold run. induction ins as [|i ins IH]; simpl; [reflexivity|].
  now rewrite H.
Qed.

Lemma resolved_stays (s : Prompt.state) (a : string) (ins : list input) :
  asking s = false -> result s = Resolved a ->
  result (run s ins) = Resolved a.
Proof.
  unfold run. revert s. induction ins as [|i ins IH]; intros s Ha Hr; simpl; [exact Hr|].
  apply IH.
  - destruct i as [b|]; simpl.
    + unfold on_line. rewrite Ha, orb_true_r. exact Ha.
    + unfold on_timer, abort, uncaughtException.
      destruct (negb (truthy (userAnswer s))); [|exact Ha].
      destruct (aborted s); [exact Ha|]. destruct (listening s); reflexivity.
  - destruct i as [b|]; simpl.
    + unfold on_line. rewrite Ha, orb_true_r. exact Hr.
    + unfold on_timer, abort, uncaughtException.
      destruct (negb (truthy (userAnswer s))); [|exact Hr].
      destruct (aborted s); [exact Hr|]. destruct (listening s); exact Hr.
Qed.

(** X10. What comes first decides the call. When the first thing the
    event loop delivers is a line, the promise is resolved with that line
    and stays so whatever follows; when it is the timer, the promise stays
    unsettled for ever and nothing that follows changes the state of the
    channel: a late answer is dropped. *)
Theorem first_input_decides
  (e : env) (question : string) (timeout : option number)
  (a : string) (rest : list input) :
  let s0 := askUser e question timeout in
  result (run s0 (Line a :: rest)) = Resolved a
  /\ result (run s0 (TimerFires :: rest)) = Unsettled
  /\ run s0 (TimerFires :: rest) = run s0 [TimerFires].
Proof.
  intros s0.
  assert (Hfix : run (step s0 TimerFires) rest = step s0 TimerFires).
  { apply run_fixed. intros [b|]; reflexivity. }
  split; [|split].
  - change (run s0 (Line a :: rest)) with (run (step s0 (Line a)) rest).
    apply resolved_stays; reflexivity.
  - change (run s0 (TimerFires :: rest)) with (run (step s0 TimerFires) rest).
    now rewrite Hfix.
  - change (run s0 (TimerFires :: rest)) with (run (step s0 TimerFires) rest).
    exact Hfix.
Qed.

(** X11. After an answer that is not empty, neither the timer nor any
    further line changes anything: the signal is never aborted, no error
    is reported and the interface stays open. *)
Theorem answered_prompt_is_stable
  (e : env) (question : string) (timeout : option number)
  (c : ascii) (a : string) (rest : list input) :
  let s0 := askUser e question timeout in
  let s1 := run s0 [Line (String c a)] in
  run s0 (Line (String c a) :: rest) = s1
  /\ closed s1 = false
  /\ uncaught s1 = []
  /\ aborted s1 = false.
Proof.
  intros s0 s1. split; [|repeat split].
  change (run s0 (Line (String c a) :: rest)) with (run s1 rest).
  apply run_fixed. intros [b|]; reflexivity.
Qed.

Lemma happen_keeps_channel (s : Prompt.state) (o : occurrence) (elsewhere : list exn) :
  channel_inv s elsewhere ->
  channel_inv (happen s o)
    (elsewhere ++ match o with Thrown e => [e] | _ => [] end).
Proof.
  unfold channel_inv.
  intros (Hl & Hab & Hrej & before & after & He & Hu & Hna).
  assert (Hsame : exists before0 after0,
             elsewhere = (before0 ++ after0)%list
             /\ uncaught s
                = (before0
                   ++ (if aborted s then [Error "The question timed out..."] else [])
                   ++ after0)%list
             /\ (aborted s = false -> after0 = []))
    by (exists before, after; auto).
  destruct o as [[a|] | | | e]; cbn [happen step]; rewrite ?app_nil_r.
  - unfold on_line. destruct (closed s || negb (asking s)); [auto|].
    cbn [listening aborted closed asking result uncaught].
    split; [exact Hl|]. split; [intros H; split; [now apply Hab | reflexivity]|].
    split; [now apply resolve_not_rejected | exact Hsame].
  - unfold on_timer. destruct (negb (truthy (userAnswer s))); [|auto].
    unfold abort. destruct (aborted s) eqn:Ha; [rewrite Ha; auto|].
    rewrite Hl. cbn [negb uncaughtException listening aborted closed asking result uncaught].
    split; [reflexivity|]. split; [auto|]. split; [exact Hrej|].
    exists elsewhere, []. split; [now rewrite app_nil_r|]. split; [|discriminate].
    rewrite Hu, He, (Hna eq_refl). cbn [app]. now rewrite !app_nil_r.
  - cbn [close_interface listening aborted closed asking result uncaught].
    split; [exact Hl|]. split; [intros H; split; [reflexivity | now apply Hab]|]. auto.
  - cbn [close_interface listening aborted closed asking result uncaught].
    split; [exact Hl|]. split; [intros H; split; [reflexivity | now apply Hab]|]. auto.
  - cbn [uncaughtException listening aborted closed asking result uncaught].
    split; [exact Hl|]. split; [intros H; split; [reflexivity | now apply Hab]|].
    split; [exact Hrej|].
    destruct (aborted s) eqn:Ha.
    + exists before, (after ++ [e])%list. split; [|split; [|discriminate]].
      * rewrite He. now rewrite app_assoc.
      * rewrite Hu. now rewrite <- !app_assoc.
    + exists (elsewhere ++ [e])%list, []. split; [now rewrite app_nil_r|]. split; [|reflexivity].
      rewrite Hu, He, (Hna eq_refl). cbn [app]. now rewrite !app_nil_r.
Qed.

Lemma course_keeps_channel (os : list occurrence) :
  forall (s : Prompt.state) (elsewhere : list exn),
    channel_inv s elsewhere ->
    channel_inv (course s os) (elsewhere ++ thrown_elsewhere os).
Proof.
  unfold course.
  induction os as [|o os IH]; intros s l H; cbn [fold_left thrown_elsewhere flat_map].
  - now rewrite app_nil_r.
  - rewrite app_assoc. apply IH. now apply happen_keeps_channel.
Qed.

